(** * Verification of the xlsx writer (package xlsx, file xlsx.go)

    The Go package binds struct values to spreadsheet rows through the
    unioffice spreadsheet library.  This development embeds the writer
    shallowly:

    - Go strings are byte strings ([string]);
    - [int] values are integers of [Z] (every [int] of the writer is a slice
      length or a row counter), the conversion [uint32(...)] is written out
      as reduction modulo 2^32;
    - the values handed to [Write] are modelled by the fragment of
      [reflect] the writer uses: kinds, struct fields with their tags, and
      the dynamic type of each field value;
    - the spreadsheet document is a store of row objects addressed by
      handles, because the writer keeps row handles ([templateRows]) while
      it mutates the sheet;
    - a panic of the Go runtime is an explicit outcome, and the document
      keeps the mutations performed before it. *)

From Stdlib Require Import ZArith Lia SpecFloat Ascii.
From stdpp Require Import base list strings.

Local Open Scope Z_scope.
Set Warnings "-register-all".

(* ------------------------------------------------------------------ *)
(** * Strings: the functions of package [strings] used by the writer   *)
(* ------------------------------------------------------------------ *)

Module strings.

(** [strings.HasPrefix s prefix]. *)
Fixpoint HasPrefix (s prefix : string) : bool :=
  match prefix, s with
  | EmptyString, _ => true
  | String _ _, EmptyString => false
  | String a p, String b s' => if Ascii.eqb a b then HasPrefix s' p else false
  end.

(** [strings.Contains s substr]: [substr] occurs within [s]. *)
Fixpoint Contains (s substr : string) : bool :=
  HasPrefix s substr
  || match s with
     | EmptyString => false
     | String _ s' => Contains s' substr
     end.

(** [strings.Replace s old new (-1)] for a non-empty [old]: every
    non-overlapping occurrence of [old], found from left to right, is
    replaced by [new].  [skip] counts the bytes of a matched occurrence
    that remain to be dropped. *)
Fixpoint replaceFrom (old new s : string) (skip : nat) : string :=
  match s with
  | EmptyString => EmptyString
  | String c s' =>
      match skip with
      | S k => replaceFrom old new s' k
      | O =>
          if HasPrefix s old
          then new +:+ replaceFrom old new s' (Nat.pred (String.length old))
          else String c (replaceFrom old new s' 0)
      end
  end.

Definition Replace (s old new : string) : string := replaceFrom old new s 0.

End strings.

(* ------------------------------------------------------------------ *)
(** * Numbers                                                          *)
(* ------------------------------------------------------------------ *)

(** [uint32(n)] on an integer: the low 32 bits. *)
Definition uint32 (n : Z) : Z := n mod 2 ^ 32.

(** IEEE 754 binary64 values, as the Standard Library specifies them. *)
Definition float64 : Type := spec_float.

(** [float64(n)] for an integer [n]: rounding to nearest, ties to even. *)
Definition float64_of_int (n : Z) : float64 := binary_normalize 53 1024 n 0 false.

(** [float64(f)] for a binary32 value [f]: the same number in the wider
    format (the conversion is exact). *)
Definition float64_of_float32 (f : spec_float) : float64 :=
  match f with
  | S754_finite s m e => binary_normalize 53 1024 (cond_Zopp s (Zpos m)) e s
  | _ => f
  end.

(* ------------------------------------------------------------------ *)
(** * The platform: time values and the renderings the libraries own   *)
(* ------------------------------------------------------------------ *)

(** [time.Time], its method [Format], and the two renderings the
    spreadsheet library applies when it stores a number or a date in a
    cell.  None of them belongs to the package; the writer is verified for
    every implementation. *)
Class Platform := {
  Time : Type;
  Time_Format : Time -> string -> string;      (* t.Format(layout) *)
  numberText : float64 -> string;              (* the text stored by SetNumber *)
  timeText : Time -> string                    (* the text stored by SetTime *)
}.

(* ------------------------------------------------------------------ *)
(** * Package reflect: struct tags, fields, types and values           *)
(* ------------------------------------------------------------------ *)

Module reflect.

(** A struct tag, kept parsed: the [key:"value"] pairs in the order they
    are written. *)
Definition StructTag : Type := list (string * string).

(** [tag.Get(key)]: the value of the first pair with that key, or the
    empty string. *)
Fixpoint Get (tag : StructTag) (key : string) : string :=
  match tag with
  | [] => EmptyString
  | (k, v) :: rest => if String.eqb k key then v else Get rest key
  end.

(** The declared type of a struct field, as far as the writer looks at
    it: whether it is the marker interface [T] of the package. *)
Inductive FieldType := TypeT | TypeOther.

Definition FieldType_eqb (a b : FieldType) : bool :=
  match a, b with
  | TypeT, TypeT | TypeOther, TypeOther => true
  | _, _ => false
  end.

Record StructField := {
  Name : string;
  PkgPath : string;            (* empty for an exported field *)
  Type_ : FieldType;
  Tag : StructTag;
  Index : list nat
}.

(** A field as a struct type declares it; [Field] adds the index. *)
Record FieldDecl := {
  declName : string;
  declPkgPath : string;
  declType : FieldType;
  declTag : StructTag
}.

(** [reflect.Type], by kind. *)
Inductive Type' :=
| Struct (fields : list FieldDecl)
| Ptr (elem : Type')
| Slice (elem : Type')
| OtherKind.

(** A Go panic, or a result. *)
Inductive outcome (A : Type) :=
| Done (a : A)
| Panic.
Arguments Done {A} a.
Arguments Panic {A}.

(** [t.NumField()] panics unless [t] is a struct type. *)
Definition NumField (t : Type') : outcome nat :=
  match t with
  | Struct fields => Done (length fields)
  | _ => Panic
  end.

(** [t.Field(i)]. *)
Definition Field (t : Type') (i : nat) : outcome StructField :=
  match t with
  | Struct fields =>
      match fields !! i with
      | Some d => Done {| Name := declName d; PkgPath := declPkgPath d;
                          Type_ := declType d; Tag := declTag d; Index := [i] |}
      | None => Panic
      end
  | _ => Panic
  end.

(** [t.Elem()] panics unless [t] is a pointer or a slice type (arrays,
    channels and maps are of [OtherKind] here and play no part). *)
Definition Elem (t : Type') : outcome Type' :=
  match t with
  | Ptr e | Slice e => Done e
  | _ => Panic
  end.

Definition isPtr (t : Type') : bool :=
  match t with Ptr _ => true | _ => false end.

Section Values.
Context `{Platform}.

(** What [v.Interface()] holds for a struct field: the dynamic types
    the type switch of [setCellValue] tells apart. *)
Inductive Interface :=
| ITime (t : Time)
| IInt (n : Z) | IInt8 (n : Z) | IInt16 (n : Z) | IInt32 (n : Z) | IInt64 (n : Z)
| IUint (n : Z) | IUint8 (n : Z) | IUint16 (n : Z) | IUint32 (n : Z) | IUint64 (n : Z)
| IFloat32 (f : spec_float) | IFloat64 (f : float64)
| IString (s : string)
| IOther.

(** [reflect.Value]: the zero Value, a struct with the values of its
    fields, a pointer, a slice, or a value of any other kind. *)
Inductive Value :=
| Invalid
| StructValue (fields : list FieldDecl) (values : list Interface)
| PtrValue (elem : Type') (target : option Value)
| SliceValue (elem : Type') (items : list Value)
| OtherValue.

(** [v.Type()] panics on the zero Value. *)
Definition TypeOf (v : Value) : outcome Type' :=
  match v with
  | Invalid => Panic
  | StructValue fields _ => Done (Struct fields)
  | PtrValue elem _ => Done (Ptr elem)
  | SliceValue elem _ => Done (Slice elem)
  | OtherValue => Done OtherKind
  end.

Definition isSliceValue (v : Value) : bool :=
  match v with SliceValue _ _ => true | _ => false end.

(** The elements [v.Index(0)], ..., [v.Index(v.Len() - 1)] of a slice. *)
Definition Items (v : Value) : list Value :=
  match v with SliceValue _ items => items | _ => [] end.

(** [v.FieldByIndex(index).Interface()].  With a one-element index this
    is [v.Field(i)], which panics unless [v] is a struct and [i] is in
    range.  With an empty index it is [v] itself, a struct; a longer
    index descends into a field, and the field values here have no
    fields of their own. *)
Definition FieldByIndex (v : Value) (index : list nat) : outcome Interface :=
  match v with
  | StructValue _ values =>
      match index with
      | [] => Done IOther
      | [i] => match values !! i with
               | Some fv => Done fv
               | None => Panic
               end
      | _ => Panic
      end
  | _ => Panic
  end.
End Values.

End reflect.

Export reflect(outcome, Done, Panic).

(* ------------------------------------------------------------------ *)
(** * The spreadsheet document (library unioffice/spreadsheet)         *)
(* ------------------------------------------------------------------ *)

(** The library is a dependency of the package, not part of it.  The model
    keeps what the writer can observe through the calls it makes:

    - a workbook owns its sheets, a store of row objects, and the cell
      formats of its style sheet;
    - a sheet lists its rows by handle, in document order
      ([SheetData.Row]);
    - a row object has an optional row number (the attribute [r]) and its
      cells in order; a cell has an optional reference, a value and an
      optional style index (the attribute [s]).

    A cell reference is kept parsed, as column letters and row number;
    [None] stands for a missing reference or one that does not parse. *)

Module spreadsheet.

(** Handles: [spreadsheet.Sheet] is the position of the sheet in the
  workbook, [spreadsheet.Row] the address of the row object in the
  store, [spreadsheet.Cell] a row and the position of the cell in it.
  [spreadsheet.CellStyle] is the index of a cell format; [None] is the
  empty style. *)
Abbreviation Sheet := nat (only parsing).
Abbreviation Row := nat (only parsing).
Abbreviation Cell := (nat * nat)%type (only parsing).
Abbreviation CellStyle := (option Z) (only parsing).

Section Document.
Context `{Platform}.

Inductive CellValue :=
| Unset
| StringValue (s : string)
| NumberValue (f : float64)
| TimeValue (t : Time).

Record CT_Cell := {
  RAttr : option (string * Z);
  V : CellValue;
  SAttr : option Z
}.

Record CT_Row := {
  rowRAttr : option Z;
  C : list CT_Cell
}.

Record CT_Sheet := {
  SheetIdAttr : Z;
  NameAttr : string;
  SheetData : list nat
}.

Record Workbook := {
  sheets : list CT_Sheet;
  rowObjects : list CT_Row;
  CellXfs : Z                   (* number of cell formats of the style sheet *)
}.


Definition emptyCell : CT_Cell := {| RAttr := None; V := Unset; SAttr := None |}.
Definition emptyRow : CT_Row := {| rowRAttr := None; C := [] |}.
Definition emptySheet : CT_Sheet :=
  {| SheetIdAttr := 0; NameAttr := EmptyString; SheetData := [] |}.

Definition sheetAt (wb : Workbook) (s : Sheet) : CT_Sheet :=
  default emptySheet (sheets wb !! s).
Definition rowAt (wb : Workbook) (r : Row) : CT_Row :=
  default emptyRow (rowObjects wb !! r).
Definition cellAt (wb : Workbook) (c : Cell) : CT_Cell :=
  default emptyCell (C (rowAt wb c.1) !! c.2).

Definition setSheet (wb : Workbook) (s : Sheet) (x : CT_Sheet) : Workbook :=
  {| sheets := <[s := x]> (sheets wb);
     rowObjects := rowObjects wb; CellXfs := CellXfs wb |}.
Definition setRow (wb : Workbook) (r : Row) (x : CT_Row) : Workbook :=
  {| sheets := sheets wb;
     rowObjects := <[r := x]> (rowObjects wb); CellXfs := CellXfs wb |}.
Definition setCell (wb : Workbook) (c : Cell) (x : CT_Cell) : Workbook :=
  setRow wb c.1
    {| rowRAttr := rowRAttr (rowAt wb c.1); C := <[c.2 := x]> (C (rowAt wb c.1)) |}.

(** ** Workbook *)

(** [spreadsheet.New()]: no sheet, no row, no cell format. *)
Definition New : Workbook := {| sheets := []; rowObjects := []; CellXfs := 0 |}.

(** [wb.Sheets()]. *)
Definition Sheets (wb : Workbook) : list Sheet := seq 0 (length (sheets wb)).

(** The decimal digits of a number, for the name of a new sheet. *)
Fixpoint digits (fuel n : nat) (acc : string) : string :=
  match fuel with
  | O => acc
  | S fuel' =>
      let acc' := String (ascii_of_nat (48 + n mod 10)) acc in
      if (n <? 10)%nat then acc' else digits fuel' (n / 10) acc'
  end.
Definition Itoa (n : Z) : string := digits (S (Z.to_nat n)) (Z.to_nat n) EmptyString.

(** [wb.AddSheet()]: a new sheet at the end, with the next free sheet
    id and the name ["Sheet <id>"]. *)
Definition nextSheetId (wb : Workbook) : Z :=
  foldl (fun id s => if id <=? SheetIdAttr s then SheetIdAttr s + 1 else id) 1 (sheets wb).

Definition AddSheet (wb : Workbook) : Sheet * Workbook :=
  let id := nextSheetId wb in
  (length (sheets wb),
   {| sheets := sheets wb ++ [{| SheetIdAttr := id;
                                 NameAttr := "Sheet " +:+ Itoa id;
                                 SheetData := [] |}];
      rowObjects := rowObjects wb; CellXfs := CellXfs wb |}).

(** [wb.StyleSheet.GetCellStyle(id)]: the format of that index, or the
    empty style. *)
Definition GetCellStyle (wb : Workbook) (id : Z) : CellStyle :=
  if (0 <=? id) && (id <? CellXfs wb) then Some id else None.

Definition IsEmpty (style : CellStyle) : bool :=
  match style with Some _ => false | None => true end.

(** ** Sheet *)

Definition Sheet_Name (wb : Workbook) (s : Sheet) : string := NameAttr (sheetAt wb s).

Definition Sheet_SetName (wb : Workbook) (s : Sheet) (name : string) : Workbook :=
  let x := sheetAt wb s in
  setSheet wb s {| SheetIdAttr := SheetIdAttr x; NameAttr := name; SheetData := SheetData x |}.

(** [s.Rows()]. *)
Definition Sheet_Rows (wb : Workbook) (s : Sheet) : list Row := SheetData (sheetAt wb s).

Definition setSheetData (wb : Workbook) (s : Sheet) (rows : list Row) : Workbook :=
  let x := sheetAt wb s in
  setSheet wb s {| SheetIdAttr := SheetIdAttr x; NameAttr := NameAttr x; SheetData := rows |}.

(** The library keeps the rows of a sheet in ascending order of their
    numbers: a row added with a number goes before the first row with a
    greater number. *)
Fixpoint insertRow (wb : Workbook) (rowNum : Z) (r : Row) (rows : list Row) : list Row :=
  match rows with
  | [] => [r]
  | r' :: rest =>
      match rowRAttr (rowAt wb r') with
      | Some n => if rowNum <? n then r :: r' :: rest
                  else r' :: insertRow wb rowNum r rest
      | None => r' :: insertRow wb rowNum r rest
      end
  end.

(** [s.AddNumberedRow(rowNum)]: a new row object with that number and no
    cell. *)
Definition Sheet_AddNumberedRow (wb : Workbook) (s : Sheet) (rowNum : Z) : Row * Workbook :=
  let r := length (rowObjects wb) in
  let wb' := {| sheets := sheets wb;
                rowObjects := rowObjects wb ++ [{| rowRAttr := Some rowNum; C := [] |}];
                CellXfs := CellXfs wb |} in
  (r, setSheetData wb' s (insertRow wb' rowNum r (Sheet_Rows wb' s))).

Definition hasRowNumber (wb : Workbook) (rowNum : Z) (r : Row) : bool :=
  match rowRAttr (rowAt wb r) with
  | Some n => n =? rowNum
  | None => false
  end.

(** [s.Row(rowNum)]: the first row with that number; a new row is added
    when there is none. *)
Definition Sheet_Row (wb : Workbook) (s : Sheet) (rowNum : Z) : Row * Workbook :=
  match List.find (hasRowNumber wb rowNum) (Sheet_Rows wb s) with
  | Some r => (r, wb)
  | None => Sheet_AddNumberedRow wb s rowNum
  end.

(** [s.AddRow()]: a new row numbered one past the last row when the rows
    are numbered 1, 2, ..., and one past the greatest row number
    otherwise. *)
Definition maxRowID (wb : Workbook) (rows : list Row) : Z :=
  foldl (fun m r => match rowRAttr (rowAt wb r) with
                    | Some n => if m <? n then n else m
                    | None => m
                    end) 0 rows.

Definition Sheet_AddRow (wb : Workbook) (s : Sheet) : Row * Workbook :=
  let rows := Sheet_Rows wb s in
  let numRows := uint32 (Z.of_nat (length rows)) in
  let fast := match last rows with
              | Some r => (0 <? numRows) && hasRowNumber wb numRows r
              | None => false
              end in
  Sheet_AddNumberedRow wb s
    (uint32 ((if fast then numRows else maxRowID wb rows) + 1)).

(** ** Row *)

(** [r.RowNumber()]: 0 for a row without number. *)
Definition Row_RowNumber (wb : Workbook) (r : Row) : Z :=
  default 0 (rowRAttr (rowAt wb r)).

(** [r.Cells()]. *)
Definition Row_Cells (wb : Workbook) (r : Row) : list Cell :=
  map (pair r) (seq 0 (length (C (rowAt wb r)))).

Definition hasReference (col : string) (rowNum : Z) (c : CT_Cell) : bool :=
  match RAttr c with
  | Some (col', n) => String.eqb col' col && (n =? rowNum)
  | None => false
  end.

(** The position of the first element that satisfies [p]. *)
Fixpoint findIndex {A : Type} (p : A -> bool) (l : list A) : option nat :=
  match l with
  | [] => None
  | a :: l' => if p a then Some O else S <$> findIndex p l'
  end.

(** [r.AddNamedCell(col)]: a new cell at the end of the row. *)
Definition Row_AddNamedCell (wb : Workbook) (r : Row) (col : string) : Cell * Workbook :=
  let x := rowAt wb r in
  ((r, length (C x)),
   setRow wb r {| rowRAttr := rowRAttr x;
                  C := C x ++ [{| RAttr := Some (col, Row_RowNumber wb r);
                                  V := Unset; SAttr := None |}] |}).

(** [r.Cell(col)]: the cell of that column; it is added when the row has
    none. *)
Definition Row_Cell (wb : Workbook) (r : Row) (col : string) : Cell * Workbook :=
  match findIndex (hasReference col (Row_RowNumber wb r)) (C (rowAt wb r)) with
  | Some i => ((r, i), wb)
  | None => Row_AddNamedCell wb r col
  end.

(** Column letters from a column index, and back. *)
Fixpoint IndexToColumn_from (fuel u : nat) (acc : string) : string :=
  match fuel with
  | O => acc
  | S fuel' =>
      if (u <? 26)%nat then String (ascii_of_nat (65 + u)) acc
      else IndexToColumn_from fuel' (u / 26 - 1)
             (String (ascii_of_nat (65 + u mod 26)) acc)
  end.
Definition IndexToColumn (u : nat) : string := IndexToColumn_from (S u) u EmptyString.

Fixpoint ColumnToIndex_from (col : string) (res : nat) : nat :=
  match col with
  | EmptyString => res
  | String c col' => ColumnToIndex_from col' (res * 26 + (nat_of_ascii c - 64))
  end.
Definition ColumnToIndex (col : string) : nat := (ColumnToIndex_from col 0 - 1)%nat.

(** [r.AddCell()]: a new cell at the end of the row, in the column after
    the last cell when the cells are in the columns A, B, ..., and after
    the greatest column otherwise. *)
Definition nextColumnIndex (cells : list CT_Cell) : nat :=
  foldl (fun nextIdx c => match RAttr c with
                          | Some (col, _) =>
                              if (nextIdx <=? ColumnToIndex col)%nat
                              then S (ColumnToIndex col) else nextIdx
                          | None => nextIdx
                          end) O cells.

Definition nextColumn (x : CT_Row) : string :=
  let numCells := length (C x) in
  let fast := match last (C x) with
              | Some c => hasReference (IndexToColumn (numCells - 1))
                            (default 0 (rowRAttr x)) c
              | None => false
              end in
  IndexToColumn (if fast then numCells else nextColumnIndex (C x)).

Definition Row_AddCell (wb : Workbook) (r : Row) : Cell * Workbook :=
  let x := rowAt wb r in
  ((r, length (C x)),
   setRow wb r {| rowRAttr := rowRAttr x;
                  C := C x ++ [{| RAttr := Some (nextColumn x, Row_RowNumber wb r);
                                  V := Unset; SAttr := None |}] |}).

(** ** Cell *)

(** [c.GetString()]: the text of the cell. *)
Definition valueText (v : CellValue) : string :=
  match v with
  | Unset => EmptyString
  | StringValue s => s
  | NumberValue f => numberText f
  | TimeValue t => timeText t
  end.

Definition Cell_GetString (wb : Workbook) (c : Cell) : string :=
  valueText (V (cellAt wb c)).

(** [c.Column()]: the column letters of the reference; [None] is the
    error of a cell whose reference cannot be read. *)
Definition Cell_Column (wb : Workbook) (c : Cell) : option string :=
  fst <$> RAttr (cellAt wb c).

Definition setV (wb : Workbook) (c : Cell) (v : CellValue) : Workbook :=
  let x := cellAt wb c in
  setCell wb c {| RAttr := RAttr x; V := v; SAttr := SAttr x |}.

Definition Cell_SetString (wb : Workbook) (c : Cell) (s : string) : Workbook :=
  setV wb c (StringValue s).
Definition Cell_SetNumber (wb : Workbook) (c : Cell) (f : float64) : Workbook :=
  setV wb c (NumberValue f).
Definition Cell_SetTime (wb : Workbook) (c : Cell) (t : Time) : Workbook :=
  setV wb c (TimeValue t).

(** [c.X().SAttr]. *)
Definition Cell_SAttr (wb : Workbook) (c : Cell) : option Z := SAttr (cellAt wb c).

(** [c.SetStyle(style)] stores the index of the style. *)
Definition Cell_SetStyle (wb : Workbook) (c : Cell) (style : CellStyle) : Workbook :=
  let x := cellAt wb c in
  setCell wb c {| RAttr := RAttr x; V := V x; SAttr := Some (default 0 style) |}.

End Document.
End spreadsheet.

(* ------------------------------------------------------------------ *)
(** * Package xlsx                                                     *)
(* ------------------------------------------------------------------ *)

Import reflect spreadsheet.

Section Writer.
Context `{Platform}.

(** Option defines the option for the xlsx processing. *)
Record Option := { TemplateFile : string }.

(** OptionFn defines the func to change the option. *)
Definition OptionFn : Type := Option -> Option.

(** Xlsx is the structure for xlsx processing.  [currentSheet] is [None]
    for the zero value [spreadsheet.Sheet{}]. *)
Record Xlsx := {
  workbook : Workbook;
  currentSheet : option Sheet;
  option_ : Option;
  rowsWritten : Z
}.

Definition nonEmpty (s : string) : bool := negb (String.eqb s EmptyString).

Definition hasTemplate (x : Xlsx) : bool := nonEmpty (TemplateFile (option_ x)).

Definition createOption (optionFns : list OptionFn) : Option :=
  foldl (fun option fn => fn option) {| TemplateFile := EmptyString |} optionFns.

(** WithTemplate defines the template excel file the writing. *)
Definition WithTemplate (templateFile : string) : OptionFn :=
  fun _ => {| TemplateFile := templateFile |}.

(** New creates a new instance of Xlsx.  [Open] stands for
    [spreadsheet.Open]: the workbook read from a file, or [None] when the
    file cannot be opened (the failure is logged and a blank workbook is
    used). *)
Definition New (Open : string -> option Workbook) (optionFns : list OptionFn) : Xlsx :=
  let option := createOption optionFns in
  let opened := if nonEmpty (TemplateFile option) then Open (TemplateFile option) else None in
  {| workbook := default spreadsheet.New opened;
     currentSheet := None;
     option_ := option;
     rowsWritten := 0 |}.

(** ** Methods run on the instance: a state monad with panics *)

Definition M (A : Type) : Type := Xlsx -> outcome A * Xlsx.

Definition ret {A} (a : A) : M A := fun x => (Done a, x).
Definition bind {A B} (m : M A) (k : A -> M B) : M B :=
  fun x => match m x with
           | (Done a, x') => k a x'
           | (Panic, x') => (Panic, x')
           end.
Definition panic {A} : M A := fun x => (Panic, x).

Notation "v <- m ;; k" := (bind m (fun v => k))
  (at level 100, m at next level, right associativity).
Notation "m ;;; k" := (bind m (fun _ => k))
  (at level 100, right associativity).

Definition lift {A} (o : outcome A) : M A := fun x => (o, x).

(** A call that reads the workbook. *)
Definition read {A} (f : Workbook -> A) : M A := fun x => (Done (f (workbook x)), x).

Definition setWorkbook (x : Xlsx) (wb : Workbook) : Xlsx :=
  {| workbook := wb; currentSheet := currentSheet x;
     option_ := option_ x; rowsWritten := rowsWritten x |}.

(** A call that changes the workbook and returns a handle. *)
Definition call {A} (f : Workbook -> A * Workbook) : M A :=
  fun x => let '(a, wb) := f (workbook x) in (Done a, setWorkbook x wb).

(** A call that changes the workbook. *)
Definition update (f : Workbook -> Workbook) : M unit :=
  fun x => (Done tt, setWorkbook x (f (workbook x))).

(** The sheet behind [x.currentSheet]; a method call on the zero value
    dereferences a nil pointer. *)
Definition theSheet : M Sheet :=
  fun x => match currentSheet x with
           | Some s => (Done s, x)
           | None => (Panic, x)
           end.

Definition setCurrentSheet (s : Sheet) : M unit :=
  fun x => (Done tt, {| workbook := workbook x; currentSheet := Some s;
                        option_ := option_ x; rowsWritten := rowsWritten x |}).

Definition setRowsWritten (n : Z) : M unit :=
  fun x => (Done tt, {| workbook := workbook x; currentSheet := currentSheet x;
                        option_ := option_ x; rowsWritten := n |}).

(** [for _, a := range l { body a }]. *)
Fixpoint forEach {A} (l : list A) (body : A -> M unit) : M unit :=
  match l with
  | [] => ret tt
  | a :: l' => body a ;;; forEach l' body
  end.

(** ** The type-level tag and the fields *)

(** [findTTag]: the tag of the first field of type [T]. *)
Definition findTTag (t : Type') : outcome StructTag :=
  match t with
  | Struct fields =>
      Done (match List.find (fun f => FieldType_eqb (declType f) TypeT) fields with
            | Some f => declTag f
            | None => []
            end)
  | _ => Panic
  end.

(** [collectExportableFields]: the exported fields that are not of type
    [T], each with its index in the struct. *)
Fixpoint exportableFrom (fields : list FieldDecl) (i : nat) : list StructField :=
  match fields with
  | [] => []
  | f :: rest =>
      if nonEmpty (declPkgPath f) || FieldType_eqb (declType f) TypeT
      then exportableFrom rest (S i)
      else {| Name := declName f; PkgPath := declPkgPath f; Type_ := declType f;
              Tag := declTag f; Index := [i] |} :: exportableFrom rest (S i)
  end.

Definition collectExportableFields (t : Type') : outcome (list StructField) :=
  match t with
  | Struct fields => Done (exportableFrom fields 0)
  | _ => Panic
  end.

(** [collectTitles]. *)
Fixpoint collectTitlesFrom (fields : list StructField)
    (titles : list string) (customizedTitle : bool) : list string * bool :=
  match fields with
  | [] => (titles, customizedTitle)
  | f :: rest =>
      let t := Get (Tag f) "title" in
      if nonEmpty t then collectTitlesFrom rest (titles ++ [t]) true
      else collectTitlesFrom rest (titles ++ [Name f]) customizedTitle
  end.

Definition collectTitles (fields : list StructField) : list string * bool :=
  collectTitlesFrom fields [] false.

(** ** ConvertLayout converts the time format in java to golang. *)
Definition ConvertLayout (layout : string) : string :=
  let lo := layout in
  let lo := strings.Replace lo "yyyy" "2006" in
  let lo := strings.Replace lo "yy" "06" in
  let lo := strings.Replace lo "MM" "01" in
  let lo := strings.Replace lo "dd" "02" in
  let lo := strings.Replace lo "HH" "15" in
  let lo := strings.Replace lo "mm" "04" in
  let lo := strings.Replace lo "ss" "05" in
  let lo := strings.Replace lo "SSS" "000" in
  lo.

Definition convertToFloat64 (v : Interface) : float64 :=
  match v with
  | IInt fv | IInt8 fv | IInt16 fv | IInt32 fv | IInt64 fv
  | IUint fv | IUint8 fv | IUint16 fv | IUint32 fv | IUint64 fv => float64_of_int fv
  | IFloat32 fv => float64_of_float32 fv
  | IFloat64 fv => fv
  | _ => float64_of_int 0
  end.

(** ** Cells *)

Definition setCellValue (cell : Cell) (field : StructField) (value : Value) : M unit :=
  v <- lift (FieldByIndex value (Index field)) ;;
  match v with
  | ITime fv =>
      let format := Get (Tag field) "format" in
      if nonEmpty format
      then update (fun wb => Cell_SetString wb cell (Time_Format fv (ConvertLayout format)))
      else update (fun wb => Cell_SetTime wb cell fv)
  | IInt _ | IInt8 _ | IInt16 _ | IInt32 _ | IInt64 _
  | IUint _ | IUint8 _ | IUint16 _ | IUint32 _ | IUint64 _
  | IFloat32 _ | IFloat64 _ =>
      update (fun wb => Cell_SetNumber wb cell (convertToFloat64 v))
  | IString fv => update (fun wb => Cell_SetString wb cell fv)
  | IOther => ret tt
  end.

Definition writeRow (fields : list StructField) (value : Value) : M unit :=
  s <- theSheet ;;
  row <- call (fun wb => Sheet_AddRow wb s) ;;
  forEach fields (fun field =>
    cell <- call (fun wb => Row_AddCell wb row) ;;
    setCellValue cell field value).

(** [writeTitles]: one cell per field, holding [titles[i]]. *)
Fixpoint writeTitleCells (row : Row) (fields : list StructField)
    (titles : list string) (i : nat) : M unit :=
  match fields with
  | [] => ret tt
  | _ :: rest =>
      cell <- call (fun wb => Row_AddCell wb row) ;;
      match titles !! i with
      | Some title =>
          update (fun wb => Cell_SetString wb cell title) ;;;
          writeTitleCells row rest titles (S i)
      | None => panic
      end
  end.

Definition writeTitles (fields : list StructField) (titles : list string) : M unit :=
  s <- theSheet ;;
  row <- call (fun wb => Sheet_AddRow wb s) ;;
  writeTitleCells row fields titles 0.

(** ** The template location *)

Record templateCell := {
  cellColumn : string;
  structField : StructField
}.

Record templateLocation := {
  titledRowIndex : Z;
  rowsEndIndex : Z;
  templateCells : list templateCell;
  templateRows : list Row
}.

(** The zero value [templateLocation{}]. *)
Definition noLocation : templateLocation :=
  {| titledRowIndex := 0; rowsEndIndex := 0; templateCells := []; templateRows := [] |}.

Definition isValid (t : templateLocation) : bool := (0 <? length (templateCells t))%nat.

(** [findTemplateTitledRow], innermost loop: [for i, title := range
    titles] on one cell.  [None] when no title is recorded for the cell.
    The failure of [cell.Column()] is logged, and the loop goes on with
    the next title. *)
Fixpoint matchTitles (wb : Workbook) (fields : list StructField) (cell : Cell)
    (cellString : string) (titles : list string) (i : nat) : outcome (option templateCell) :=
  match titles with
  | [] => Done None
  | title :: rest =>
      if negb (strings.Contains cellString title)
      then matchTitles wb fields cell cellString rest (S i)
      else
        match Cell_Column wb cell with
        | None => matchTitles wb fields cell cellString rest (S i)
        | Some col =>
            match fields !! i with
            | Some f => Done (Some {| cellColumn := col; structField := f |})
            | None => Panic
            end
        end
  end.

(** [for _, cell := range row.Cells()]. *)
Fixpoint scanCells (wb : Workbook) (fields : list StructField) (titles : list string)
    (cells : list Cell) (templateCells : list templateCell) : outcome (list templateCell) :=
  match cells with
  | [] => Done templateCells
  | cell :: rest =>
      match matchTitles wb fields cell (Cell_GetString wb cell) titles 0 with
      | Done (Some tc) => scanCells wb fields titles rest (templateCells ++ [tc])
      | Done None => scanCells wb fields titles rest templateCells
      | Panic => Panic
      end
  end.

(** [for rowIndex, row := range rows]. *)
Fixpoint scanRows (wb : Workbook) (fields : list StructField) (titles : list string)
    (rows : list Row) (rowIndex : Z) (templateCells : list templateCell)
    : outcome (Z * list templateCell) :=
  match rows with
  | [] => Done (-1, templateCells)
  | row :: rest =>
      match scanCells wb fields titles (Row_Cells wb row) templateCells with
      | Done templateCells' =>
          if (0 <? length templateCells')%nat
          then Done (rowIndex, templateCells')
          else scanRows wb fields titles rest (rowIndex + 1) templateCells'
      | Panic => Panic
      end
  end.

Definition findTemplateTitledRow (wb : Workbook) (fields : list StructField)
    (titles : list string) (rows : list Row) : outcome (Z * list templateCell) :=
  scanRows wb fields titles rows 0 [].

(** [findTemplateRows], the loop [for i := titledRowIndex + 1; i <
    len(rows); i++] over the rows that remain. *)
Fixpoint scanTemplateRows (col : string) (rows : list Row) (templateRows : list Row)
    : M (list Row) :=
  match rows with
  | [] => ret templateRows
  | row :: rest =>
      cell <- call (fun wb => Row_Cell wb row col) ;;
      text <- read (fun wb => Cell_GetString wb cell) ;;
      if strings.Contains text "template"
      then scanTemplateRows col rest (templateRows ++ [row])
      else if (length templateRows =? 0)%nat
           then ret (templateRows ++ [row])
           else scanTemplateRows col rest templateRows
  end.

Definition findTemplateRows (titledRowIndex : Z) (templateCells : list templateCell)
    (rows : list Row) : M (list Row) :=
  if titledRowIndex <? 0 then ret []
  else
    match templateCells with
    | [] => panic
    | tc :: _ =>
        scanTemplateRows (cellColumn tc) (drop (Z.to_nat (titledRowIndex + 1)) rows) []
    end.

Definition locateTitles (fields : list StructField) (titles : list string)
    : M templateLocation :=
  fun x =>
    if negb (hasTemplate x) then (Done noLocation, x)
    else
      (s <- theSheet ;;
       rows <- read (fun wb => Sheet_Rows wb s) ;;
       found <- (fun x => (findTemplateTitledRow (workbook x) fields titles rows, x)) ;;
       let '(titledRowIndex, templateCells) := found in
       templateRows <- findTemplateRows titledRowIndex templateCells rows ;;
       ret {| titledRowIndex := titledRowIndex;
              templateRows := templateRows;
              templateCells := templateCells;
              rowsEndIndex := Z.of_nat (length rows) |}) x.

(** ** Writing into the template *)

(** [copyRowStyle], the loop over the matched columns. *)
Definition copyCellStyle (templateRow row : Row) (tc : templateCell) : M unit :=
  cx <- call (fun wb => Row_Cell wb templateRow (cellColumn tc)) ;;
  sattr <- read (fun wb => Cell_SAttr wb cx) ;;
  match sattr with
  | Some id =>
      style <- read (fun wb => GetCellStyle wb id) ;;
      if negb (IsEmpty style)
      then
        cell <- call (fun wb => Row_Cell wb row (cellColumn tc)) ;;
        update (fun wb => Cell_SetStyle wb cell style)
      else ret tt
  | None => ret tt
  end.

Definition copyRowStyle (l : templateLocation) (row : Row) : M unit :=
  fun x =>
    let len := Z.of_nat (length (templateRows l)) in
    if (len =? 0) || (rowsWritten x <? len) then (Done tt, x)
    else
      match templateRows l !! Z.to_nat (Z.rem (rowsWritten x - 1) len) with
      | Some templateRow => forEach (templateCells l) (copyCellStyle templateRow row) x
      | None => (Panic, x)
      end.

Definition writeTemplateRow (l : templateLocation) (v : Value) : M unit :=
  fun x =>
    let num := uint32 (titledRowIndex l + 2 + rowsWritten x) in
    (setRowsWritten (rowsWritten x + 1) ;;;
     s <- theSheet ;;
     row <- call (fun wb => Sheet_Row wb s num) ;;
     forEach (templateCells l) (fun tc =>
       cell <- call (fun wb => Row_Cell wb row (cellColumn tc)) ;;
       setCellValue cell (structField tc) v) ;;;
     copyRowStyle l row) x.

(** [removeTempleRows].  The slice expression [rows[:endIndex]] panics
    for a negative [endIndex]. *)
Definition removeTempleRows (l : templateLocation) : M unit :=
  fun x =>
    if (length (templateRows l) =? 0)%nat then (Done tt, x)
    else
      (s <- theSheet ;;
       rows <- read (fun wb => Sheet_Rows wb s) ;;
       let endIndex := titledRowIndex l + 1 + rowsWritten x in
       if endIndex <? Z.of_nat (length rows)
       then
         if endIndex <? 0 then panic
         else update (fun wb => setSheetData wb s (take (Z.to_nat endIndex) rows))
       else ret tt) x.

(** ** Sheets *)

Definition createSheet (ttag : StructTag) : M Sheet :=
  fun x =>
    let sheetName := Get ttag "sheet" in
    let wb := workbook x in
    match (if hasTemplate x
           then List.find (fun sheet => String.eqb (Sheet_Name wb sheet) sheetName) (Sheets wb)
           else None) with
    | Some sheet => (Done sheet, x)
    | None =>
        let wbSheet : option Sheet :=
          if hasTemplate x && (0 <? length (Sheets wb))%nat
          then Sheets wb !! 0%nat else None in
        let '(wbSheet, wb) :=
          match wbSheet with
          | Some sheet => (sheet, wb)
          | None => AddSheet wb
          end in
        let wb :=
          if nonEmpty sheetName && negb (strings.Contains (Sheet_Name wb wbSheet) sheetName)
          then Sheet_SetName wb wbSheet sheetName
          else wb in
        (Done wbSheet, setWorkbook x wb)
    end.

(** ** Write Writes beans to the underlying xlsx. *)

(** What [Write] has computed when it reaches the rows. *)
Record prepared := {
  isSlice : bool;
  fields_ : list StructField;
  titles_ : list string;
  ttag_ : StructTag;
  location_ : templateLocation;
  customizedTitle_ : bool
}.

(** Lines 71 to 90: the type of the beans, the sheet, the fields, the
    titles and the location. *)
Definition Write_prepare (beans : Value) : M prepared :=
  let beanReflectValue := beans in
  beanType <- lift (TypeOf beanReflectValue) ;;
  let isSlice := isSliceValue beanReflectValue in
  beanType <- (if isSlice then lift (Elem beanType) else ret beanType) ;;
  beanType <- (if isPtr beanType then lift (Elem beanType) else ret beanType) ;;
  ttag <- lift (findTTag beanType) ;;
  sheet <- createSheet ttag ;;
  setCurrentSheet sheet ;;;
  fields <- lift (collectExportableFields beanType) ;;
  let '(titles, customizedTitle) := collectTitles fields in
  location <- locateTitles fields titles ;;
  let customizedTitle := customizedTitle && negb (isValid location) in
  ret {| isSlice := isSlice; fields_ := fields; titles_ := titles; ttag_ := ttag;
         location_ := location; customizedTitle_ := customizedTitle |}.

(** Lines 92 to 94: the title row. *)
Definition Write_titles (p : prepared) : M unit :=
  let writeTitle := customizedTitle_ p || nonEmpty (Get (ttag_ p) "title") in
  if writeTitle then writeTitles (fields_ p) (titles_ p) else ret tt.

(** Lines 96 to 118: the rows. *)
Definition Write_rows (p : prepared) (beans : Value) : M unit :=
  let location := location_ p in
  if isValid location
  then
    setRowsWritten 0 ;;;
    (if isSlice p
     then forEach (Items beans) (fun bean => writeTemplateRow location bean)
     else writeTemplateRow location beans) ;;;
    removeTempleRows location
  else
    if isSlice p
    then forEach (Items beans) (fun bean => writeRow (fields_ p) bean)
    else writeRow (fields_ p) beans.

Definition Write (beans : Value) : M unit :=
  p <- Write_prepare beans ;;
  Write_titles p ;;;
  Write_rows p beans.

End Writer.

(* ------------------------------------------------------------------ *)
(** * The vocabulary of the properties                                 *)
(* ------------------------------------------------------------------ *)

(** What the theorems below speak about: observations of the document
    by row and column, relations between two states of a workbook, and
    the results the scans and loops of the writer are compared with. *)

Section Vocabulary.
Context `{Platform}.


(** The value [setCellValue] stores for a field value; [None] when it
    stores nothing. *)
Definition storedValue (field : StructField) (fv : Interface) : option CellValue :=
  match fv with
  | ITime t =>
      let format := Get (Tag field) "format" in
      Some (if nonEmpty format
            then StringValue (Time_Format t (ConvertLayout format))
            else TimeValue t)
  | IInt n | IInt8 n | IInt16 n | IInt32 n | IInt64 n
  | IUint n | IUint8 n | IUint16 n | IUint32 n | IUint64 n =>
      Some (NumberValue (float64_of_int n))
  | IFloat32 f => Some (NumberValue (float64_of_float32 f))
  | IFloat64 f => Some (NumberValue f)
  | IString s => Some (StringValue s)
  | IOther => None
  end.

(** The text of a cell contains one of the titles. *)
Definition cellHasTitle (wb : Workbook) (titles : list string) (c : Cell) : bool :=
  existsb (strings.Contains (Cell_GetString wb c)) titles.


(** The text of a cell contains one of the titles, and the column of the
    cell can be read. *)
Definition cellMatches (wb : Workbook) (titles : list string) (c : Cell) : bool :=
  cellHasTitle wb titles c && bool_decide (is_Some (Cell_Column wb c)).

(** A row has such a cell. *)
Definition rowMatches (wb : Workbook) (titles : list string) (r : Row) : bool :=
  existsb (cellMatches wb titles) (Row_Cells wb r).

(** The entry a cell contributes to [templateCells]: its column, with the
    field of the first title, in the order of the titles, that its text
    contains. *)
Definition cellEntry (wb : Workbook) (fields : list StructField) (titles : list string)
    (c : Cell) : option templateCell :=
  col ← Cell_Column wb c;
  k ← findIndex (strings.Contains (Cell_GetString wb c)) titles;
  f ← fields !! k;
  Some {| cellColumn := col; structField := f |}.

(** The position of the cell [r.Cell(col)] finds in a row object. *)
Definition cellIndex (x : CT_Row) (col : string) : option nat :=
  findIndex (hasReference col (default 0 (rowRAttr x))) (C x).

(** That cell; the empty cell when the row has none. *)
Definition cellOf (x : CT_Row) (col : string) : CT_Cell :=
  match cellIndex x col with
  | Some i => default emptyCell (C x !! i)
  | None => emptyCell
  end.

(** The value and the style index of the cell of a column; a row without
    such a cell has no value and no style there. *)
Definition valueAt (x : CT_Row) (col : string) : CellValue := V (cellOf x col).
Definition styleAt (x : CT_Row) (col : string) : option Z := SAttr (cellOf x col).





(** The workbook with the row object at [r] replaced by [f] of it. *)
Definition alterRow (f : CT_Row -> CT_Row) (wb : Workbook) (r : Row) : Workbook :=
  setRow wb r (f (rowAt wb r)).

(** Two workbooks with the same sheets, row numbers, values and styles:
    they differ by cells without value and style at most, which
    [r.Cell(col)] adds. *)
Definition sameContent (wb wb' : Workbook) : Prop :=
  sheets wb' = sheets wb
  /\ CellXfs wb' = CellXfs wb
  /\ length (rowObjects wb') = length (rowObjects wb)
  /\ forall r, rowRAttr (rowAt wb' r) = rowRAttr (rowAt wb r)
               /\ forall col, valueAt (rowAt wb' r) col = valueAt (rowAt wb r) col
                              /\ styleAt (rowAt wb' r) col = styleAt (rowAt wb r) col.

(** The test of [findTemplateRows] on a row: the text of its cell in the
    marker column contains "template". *)
Definition isMarker (wb : Workbook) (col : string) (r : Row) : bool :=
  strings.Contains (valueText (valueAt (rowAt wb r) col)) "template".

(** The rows [findTemplateRows] returns for the rows below the title
    row: the first of them alone when it does not carry the marker, and
    every row that carries the marker otherwise. *)
Definition markedRows (wb : Workbook) (col : string) (below : list Row) : list Row :=
  match below with
  | [] => []
  | r :: _ => if isMarker wb col r then List.filter (isMarker wb col) below else [r]
  end.


(** The location [locateTitles] returns on a sheet with rows [rows]. *)
Definition located (wb : Workbook) (fields : list StructField) (titles : list string)
    (rows : list Row) : templateLocation :=
  match findIndex (rowMatches wb titles) rows with
  | Some k =>
      let templateCells :=
        omap (cellEntry wb fields titles) (Row_Cells wb (default 0%nat (rows !! k))) in
      {| titledRowIndex := Z.of_nat k;
         rowsEndIndex := Z.of_nat (length rows);
         templateCells := templateCells;
         templateRows :=
           match templateCells with
           | tc :: _ => markedRows wb (cellColumn tc) (drop (S k) rows)
           | [] => []
           end |}
  | None =>
      {| titledRowIndex := -1; rowsEndIndex := Z.of_nat (length rows);
         templateCells := []; templateRows := [] |}
  end.

(** What [setCellValue] reads in a record for a field:
    [value.FieldByIndex(field.Index).Interface()]. *)
Definition fieldOf (v : Value) (field : StructField) : outcome Interface :=
  FieldByIndex v (Index field).




(** The cell of the template row in a column carries a style index, and
    the style sheet has a format of that index. *)
Definition copyable (wb : Workbook) (templateRow : Row) (col : string) : bool :=
  match styleAt (rowAt wb templateRow) col with
  | Some id => negb (IsEmpty (GetCellStyle wb id))
  | None => false
  end.







(** The state after some steps of a call of [Write] without template
    that started from the workbook [wb0] with the options [opt0]: one
    sheet was added at the end and is the current sheet, its rows are
    row objects added to the store, and every sheet and row object of
    [wb0] is as it was. *)
Definition freshSheet (wb0 : Workbook) (opt0 : Option) (x : Xlsx) : Prop :=
  exists sh extra,
    sheets (workbook x) = sheets wb0 ++ [sh]
    /\ rowObjects (workbook x) = rowObjects wb0 ++ extra
    /\ CellXfs (workbook x) = CellXfs wb0
    /\ currentSheet x = Some (length (sheets wb0))
    /\ option_ x = opt0
    /\ forall r, r ∈ SheetData sh -> (length (rowObjects wb0) <= r)%nat.

(** The struct type [Write] works with: the type of the beans, of their
    elements for a slice, behind one pointer at most.  [None] for the
    values on which [Write] panics before it touches the workbook. *)
Definition structOf (t : Type') : option (list FieldDecl) :=
  match t with
  | Struct fields | Ptr (Struct fields) => Some fields
  | _ => None
  end.

(** The same, from the value handed to [Write]. *)
Definition beanStruct (beans : Value) : option (list FieldDecl) :=
  match beans with
  | Invalid => None
  | StructValue fields _ => Some fields
  | PtrValue elem _ => structOf (Ptr elem)
  | SliceValue elem _ => structOf elem
  | OtherValue => None
  end.

(** The tag of the marker field of a struct type. *)
Definition typeTag (fields : list FieldDecl) : StructTag :=
  match List.find (fun f => FieldType_eqb (declType f) TypeT) fields with
  | Some f => declTag f
  | None => []
  end.

(** The row object after [r.AddCell()] and a value stored in the new
    cell. *)
Definition addCellWith (v : CellValue) (y : CT_Row) : CT_Row :=
  {| rowRAttr := rowRAttr y;
     C := C y ++ [{| RAttr := Some (nextColumn y, default 0 (rowRAttr y));
                     V := v; SAttr := None |}] |}.

(** The value a record gives to the cell of a field. *)
Definition recordValue (v : Value) (field : StructField) : CellValue :=
  match fieldOf v field with
  | Done fv => default Unset (storedValue field fv)
  | Panic => Unset
  end.

(** A byte occurs in a string. *)
Fixpoint occurs (c : ascii) (s : string) : bool :=
  match s with
  | EmptyString => false
  | String d s' => Ascii.eqb c d || occurs c s'
  end.

(** The letters of the layout tokens [ConvertLayout] translates. *)
Definition tokenLetter (c : ascii) : bool := occurs c "yMdHmsS".

(** A layout without token letter. *)
Fixpoint literal (s : string) : bool :=
  match s with
  | EmptyString => true
  | String c s' => negb (tokenLetter c) && literal s'
  end.

(** A field is exported and is not the marker field. *)
Definition exportable (d : FieldDecl) : bool :=
  negb (nonEmpty (declPkgPath d)) && negb (FieldType_eqb (declType d) TypeT).

(** [t.Field(i)] for the declaration [d] at position [i]. *)
Definition fieldAt (i : nat) (d : FieldDecl) : StructField :=
  {| Name := declName d; PkgPath := declPkgPath d; Type_ := declType d;
     Tag := declTag d; Index := [i] |}.

(** The title of the column of a field: its [title] tag, or its name when
    the tag is missing or empty. *)
Definition resolvedTitle (f : StructField) : string :=
  if nonEmpty (Get (Tag f) "title") then Get (Tag f) "title" else Name f.

(** The sheet [createSheet] works on when no sheet has the name of the
    tag: the first sheet of a template, a new sheet otherwise. *)
Definition unnamedSheet (x : Xlsx) : Sheet * Workbook :=
  if hasTemplate x && (0 <? length (sheets (workbook x)))%nat
  then (0%nat, workbook x) else AddSheet (workbook x).

(** The records of a call of [Write]: the elements of a slice, or the
    single value. *)
Definition beanRecords (beans : Value) : list Value :=
  if isSliceValue beans then Items beans else [beans].

(** A value of a struct type, with one value per declared field. *)
Definition recordOf (fds : list FieldDecl) (v : Value) : Prop :=
  exists values, v = StructValue fds values /\ length values = length fds.

(** The cell number [i] of a row numbered [n] whose cells were added one
    after the other: it is in the column of that position and has no
    style. *)
Definition appendedCell (n : Z) (i : nat) (v : CellValue) : CT_Cell :=
  {| RAttr := Some (IndexToColumn i, n); V := v; SAttr := None |}.

(** The row object numbered [n] that holds the values [vs]. *)
Definition appendedRow (n : Z) (vs : list CellValue) : CT_Row :=
  {| rowRAttr := Some n; C := imap (appendedCell n) vs |}.

(** The current sheet is the sheet [s], and its rows are the lines
    [lines], numbered from 1. *)
Definition appended (s : Sheet) (lines : list (list CellValue)) (x : Xlsx) : Prop :=
  currentSheet x = Some s
  /\ (s < length (sheets (workbook x)))%nat
  /\ map (rowAt (workbook x)) (Sheet_Rows (workbook x) s)
     = imap (fun k vs => appendedRow (Z.of_nat k + 1) vs) lines
  /\ forall r, r ∈ Sheet_Rows (workbook x) s -> (r < length (rowObjects (workbook x)))%nat.

(** The instance with other options. *)
Definition withOption (o : Option) (x : Xlsx) : Xlsx :=
  {| workbook := workbook x; currentSheet := currentSheet x;
     option_ := o; rowsWritten := rowsWritten x |}.

(** A method that does not look at the options: with other options it
    returns the same and changes the rest of the instance the same
    way. *)
Definition optionFree {A} (m : M A) : Prop :=
  forall o x, m (withOption o x) = ((m x).1, withOption o (m x).2).

(** The instance after [createSheet] and the assignment of the current
    sheet, on a workbook without sheet: the sheet is new. *)
Definition firstSheet (ttag : StructTag) (x : Xlsx) : Xlsx :=
  let wb1 := (AddSheet (workbook x)).2 in
  let sheetName := Get ttag "sheet" in
  {| workbook := if nonEmpty sheetName
                    && negb (strings.Contains (Sheet_Name wb1 0%nat) sheetName)
                 then Sheet_SetName wb1 0%nat sheetName else wb1;
     currentSheet := Some 0%nat; option_ := option_ x; rowsWritten := rowsWritten x |}.

(** What [Write] has computed for beans of a struct type when no
    location was found. *)
Definition appendPlan (beans : Value) (fds : list FieldDecl) : prepared :=
  let fields := exportableFrom fds 0 in
  {| isSlice := isSliceValue beans; fields_ := fields;
     titles_ := (collectTitles fields).1; ttag_ := typeTag fds;
     location_ := noLocation; customizedTitle_ := (collectTitles fields).2 |}.

(** The rows are numbered 1, 2, ... in their order. *)
Definition consecutive (wb : Workbook) (rows : list Row) : Prop :=
  forall k r, rows !! k = Some r -> rowRAttr (rowAt wb r) = Some (Z.of_nat k + 1).





End Vocabulary.

(* ------------------------------------------------------------------ *)
(** * Worked instances: the data                                       *)
(* ------------------------------------------------------------------ *)

(** A platform to run the writer on: the only time value is the reference
    time of package [time] (Mon Jan 2 15:04:05 2006), whose formatting
    with a layout is the layout itself; numbers and dates have no text. *)
#[export] Instance referencePlatform : Platform := {|
  Time := unit;
  Time_Format := fun _ layout => layout;
  numberText := fun _ => EmptyString;
  timeText := fun _ => EmptyString
|}.

(** The reference time. *)
Definition referenceTime : @Time referencePlatform := tt.

Definition textCell (col : string) (n : Z) (s : string) (style : option Z) : CT_Cell :=
  {| RAttr := Some (col, n); V := StringValue s; SAttr := style |}.

(** [type memberStat struct { Total int `title:"Total"`; New int }] *)
Definition memberStat : list FieldDecl :=
  [ {| declName := "Total"; declPkgPath := EmptyString; declType := TypeOther;
       declTag := [("title", "Total")] |};
    {| declName := "New"; declPkgPath := EmptyString; declType := TypeOther;
       declTag := [] |} ].

Definition member (total new : Z) : Value := StructValue memberStat [IInt total; IInt new].


(** [type schedule struct { Day time.Time `format:"yyyy-MM-dd"` }] *)
Definition dayField : StructField :=
  {| Name := "Day"; PkgPath := EmptyString; Type_ := TypeOther;
     Tag := [("format", "yyyy-MM-dd")]; Index := [0%nat] |}.

(** A template: a heading, the title row, a marked example row, a row
    without marker and a second marked row. *)
Definition templateBook : Workbook :=
  {| sheets := [ {| SheetIdAttr := 1; NameAttr := "Sheet1";
                    SheetData := [0; 1; 2; 3; 4]%nat |} ];
     rowObjects :=
       [ {| rowRAttr := Some 1; C := [textCell "A" 1 "Report" None] |};
         {| rowRAttr := Some 2;
            C := [textCell "A" 2 "Total (count)" (Some 1); textCell "B" 2 "New" None] |};
         {| rowRAttr := Some 3;
            C := [textCell "A" 3 "template" (Some 2); textCell "B" 3 "x" (Some 3)] |};
         {| rowRAttr := Some 4; C := [textCell "A" 4 "example" None] |};
         {| rowRAttr := Some 5; C := [textCell "A" 5 "template" (Some 4)] |} ];
     CellXfs := 5 |}.

(** An instance on a workbook, with the first sheet current. *)
Definition onSheet (wb : Workbook) (templateFile : string) (written : Z) : Xlsx :=
  {| workbook := wb; currentSheet := Some 0%nat;
     option_ := {| TemplateFile := templateFile |}; rowsWritten := written |}.

Definition templateX : Xlsx := onSheet templateBook "template.xlsx" 0.





Ltac elems :=
  repeat match goal with
         | H : _ ∈ [] |- _ => apply elem_of_nil in H; destruct H
         | H : _ ∈ _ :: _ |- _ => apply elem_of_cons in H as [->|H]
         end.

(** An instance made without option: no template file, a blank
    workbook. *)
Definition blankX : Xlsx := New (fun _ => None) [].

Definition members : Value :=
  SliceValue (Struct memberStat) [member 100 50; member 200 60].


(** [type memberStat struct { T `sheet:"Members"`; ... }]: the tag of the
    marker field. *)
Definition membersTag : StructTag := [("sheet", "Members")].




(* ------------------------------------------------------------------ *)
(** * Properties                                                       *)
(* ------------------------------------------------------------------ *)

Section Store.
Context `{Platform}.


Lemma rowAt_setRow_eq wb r x :
  (r < length (rowObjects wb))%nat -> rowAt (setRow wb r x) r = x.
Proof. intros Hr. unfold rowAt, setRow; simpl. by rewrite list_lookup_insert_eq. Qed.

Lemma rowAt_setRow_ne wb r r' x : r <> r' -> rowAt (setRow wb r x) r' = rowAt wb r'.
Proof. intros Hr. unfold rowAt, setRow; simpl. by rewrite list_lookup_insert_ne. Qed.


Lemma cellAt_setCell_ne wb c c' x : c <> c' -> cellAt (setCell wb c x) c' = cellAt wb c'.
Proof.
  intros Hc. unfold cellAt, setCell.
  destruct (decide (c.1 = c'.1)) as [E|E].
  - destruct (decide (c.1 < length (rowObjects wb))%nat) as [L|L].
    + rewrite <- E at 1. rewrite rowAt_setRow_eq by done. simpl.
      rewrite list_lookup_insert_ne; [by rewrite E|].
      intros E2. apply Hc. destruct c, c'; simpl in *; congruence.
    + unfold setRow, rowAt; simpl. rewrite list_insert_ge by lia. done.
  - by rewrite rowAt_setRow_ne.
Qed.


End Store.

Section CellValues.
Context `{Platform}.



End CellValues.

Section TitleScan.
Context `{Platform}.










End TitleScan.

Section RowObjects.
Context `{Platform}.

(** ** A row object, seen by column *)




















(** ** The store, row by row *)

Lemma setRow_rowAt wb r : setRow wb r (rowAt wb r) = wb.
Proof.
  unfold setRow, rowAt. destruct wb as [ss rs n]; simpl. f_equal.
  destruct (rs !! r) as [x|] eqn:E; simpl.
  - by apply list_insert_id.
  - apply list_insert_ge. by apply lookup_ge_None.
Qed.


Lemma rowAt_alterRow f wb r r' :
  rowAt (alterRow f wb r) r'
  = if decide (r = r' /\ (r < length (rowObjects wb))%nat) then f (rowAt wb r)
    else rowAt wb r'.
Proof.
  unfold alterRow. case_decide as Hd.
  - destruct Hd as [<- Hlt]. by rewrite rowAt_setRow_eq.
  - destruct (decide (r = r')) as [<-|Hne]; [|by rewrite rowAt_setRow_ne].
    unfold setRow, rowAt; simpl. rewrite list_insert_ge; [done|]. lia.
Qed.

Lemma alterRow_sheets f wb r : sheets (alterRow f wb r) = sheets wb.
Proof. done. Qed.

Lemma alterRow_CellXfs f wb r : CellXfs (alterRow f wb r) = CellXfs wb.
Proof. done. Qed.

Lemma alterRow_length f wb r :
  length (rowObjects (alterRow f wb r)) = length (rowObjects wb).
Proof. unfold alterRow; simpl. by rewrite length_insert. Qed.


End RowObjects.

Section TemplateRows.
Context `{Platform}.









End TemplateRows.

Section Locator.
Context `{Platform}.









End Locator.

Section RowUpdates.
Context `{Platform}.

Lemma setRow_ge wb r y : (length (rowObjects wb) <= r)%nat -> setRow wb r y = wb.
Proof.
  intros Hr. destruct wb as [ss rs n]; unfold setRow; simpl in *.
  by rewrite list_insert_ge.
Qed.

Lemma setRow_setRow wb r y z : setRow (setRow wb r y) r z = setRow wb r z.
Proof. unfold setRow; simpl. by rewrite list_insert_insert_eq. Qed.

Lemma alterRow_ge f wb r : (length (rowObjects wb) <= r)%nat -> alterRow f wb r = wb.
Proof. apply setRow_ge. Qed.

Lemma alterRow_alterRow f g wb r :
  alterRow g (alterRow f wb r) r = alterRow (fun x => g (f x)) wb r.
Proof.
  destruct (decide (r < length (rowObjects wb))%nat) as [L|L].
  - unfold alterRow at 1. rewrite rowAt_alterRow.
    rewrite decide_True by done. unfold alterRow. apply setRow_setRow.
  - by rewrite !alterRow_ge by (rewrite ?alterRow_length; lia).
Qed.



Lemma setWorkbook_setWorkbook x wb wb' :
  setWorkbook (setWorkbook x wb) wb' = setWorkbook x wb'.
Proof. done. Qed.

Lemma setWorkbook_workbook x : setWorkbook x (workbook x) = x.
Proof. by destruct x. Qed.








End RowUpdates.

Section Styles.
Context `{Platform}.



Lemma copyable_sameContent wb wb' e c :
  sameContent wb wb' -> copyable wb' e c = copyable wb e c.
Proof.
  intros (S1 & X1 & L1 & R1). unfold copyable, GetCellStyle.
  by rewrite (proj2 (proj2 (R1 e) c)), X1.
Qed.





End Styles.

Section SheetRows.
Context `{Platform}.

Lemma sheetAt_setSheet_eq wb s y :
  (s < length (sheets wb))%nat -> sheetAt (setSheet wb s y) s = y.
Proof. intros Hs. unfold sheetAt, setSheet; simpl. by rewrite list_lookup_insert_eq. Qed.


Lemma Sheet_Rows_setSheetData wb s rows :
  (s < length (sheets wb))%nat -> Sheet_Rows (setSheetData wb s rows) s = rows.
Proof. intros Hs. unfold Sheet_Rows, setSheetData. by rewrite sheetAt_setSheet_eq. Qed.

Lemma insertRow_elem wb num r rows r' :
  r' ∈ insertRow wb num r rows <-> r' = r \/ r' ∈ rows.
Proof.
  induction rows as [|a rows IH]; simpl.
  - rewrite list_elem_of_singleton. split; [by left|]. intros [?|Hin]; [done|].
    by apply elem_of_nil in Hin.
  - destruct (rowRAttr (rowAt wb a)) as [n|]; [destruct (num <? n)|];
      rewrite !elem_of_cons, ?IH; tauto.
Qed.



Lemma find_Some_elem {A} (p : A -> bool) l a :
  List.find p l = Some a -> a ∈ l /\ p a = true.
Proof.
  intros Hf. apply List.find_some in Hf as [Hin Hp]. split; [|done].
  by apply list_elem_of_In.
Qed.

Lemma find_None_elem {A} (p : A -> bool) l a :
  List.find p l = None -> a ∈ l -> p a = false.
Proof. intros Hf Hin. eapply List.find_none; [done|]. by apply list_elem_of_In. Qed.



End SheetRows.

Section TemplateWriting.
Context `{Platform}.










End TemplateWriting.

Section FreshSheet.
Context `{Platform}.

(** ** Writing without template: the footprint *)

Lemma freshSheet_setRow wb0 opt0 x r y :
  freshSheet wb0 opt0 x -> (length (rowObjects wb0) <= r)%nat ->
  freshSheet wb0 opt0 (setWorkbook x (setRow (workbook x) r y)).
Proof.
  intros (sh & extra & Hs & Hr & Hx & Hc & Ho & Hfresh) Hle.
  exists sh, (<[(r - length (rowObjects wb0))%nat := y]> extra). simpl.
  rewrite Hr. repeat split; try done.
  rewrite insert_app_r_alt by done. done.
Qed.

Lemma freshSheet_rowsWritten wb0 opt0 x n :
  freshSheet wb0 opt0 x ->
  freshSheet wb0 opt0 {| workbook := workbook x; currentSheet := currentSheet x;
                         option_ := option_ x; rowsWritten := n |}.
Proof. intros (sh & extra & ?). by exists sh, extra. Qed.

Lemma freshSheet_AddRow wb0 opt0 x :
  freshSheet wb0 opt0 x ->
  let '(r, wb) := Sheet_AddRow (workbook x) (length (sheets wb0)) in
  freshSheet wb0 opt0 (setWorkbook x wb) /\ (length (rowObjects wb0) <= r)%nat.
Proof.
  intros (sh & extra & Hs & Hr & Hx & Hc & Ho & Hfresh).
  unfold Sheet_AddRow, Sheet_AddNumberedRow.
  set (num := uint32 _). set (wb' := Build_Workbook _ _ _).
  split; [|rewrite Hr, length_app; lia].
  eexists _, (extra ++ [_]). simpl. rewrite Hs, Hr.
  rewrite insert_app_r_alt by done. rewrite Nat.sub_diag. simpl.
  repeat split; try done; [by rewrite app_assoc|].
  intros r Hin. apply insertRow_elem in Hin as [->|Hin].
  - rewrite length_app. lia.
  - apply Hfresh. unfold Sheet_Rows, sheetAt in Hin. subst wb'. simpl in Hin.
    rewrite Hs, list_lookup_middle in Hin by done. done.
Qed.

Lemma freshSheet_AddCell wb0 opt0 x r :
  freshSheet wb0 opt0 x -> (length (rowObjects wb0) <= r)%nat ->
  let '(cell, wb) := Row_AddCell (workbook x) r in
  freshSheet wb0 opt0 (setWorkbook x wb) /\ cell.1 = r.
Proof.
  intros Hf Hle. unfold Row_AddCell. split; [|done].
  by apply freshSheet_setRow.
Qed.

Lemma freshSheet_setV wb0 opt0 x cell v :
  freshSheet wb0 opt0 x -> (length (rowObjects wb0) <= cell.1)%nat ->
  freshSheet wb0 opt0 (setWorkbook x (setV (workbook x) cell v)).
Proof. intros Hf Hle. unfold setV, setCell. by apply freshSheet_setRow. Qed.

Lemma freshSheet_setCellValue wb0 opt0 x cell field v o x' :
  freshSheet wb0 opt0 x -> (length (rowObjects wb0) <= cell.1)%nat ->
  setCellValue cell field v x = (o, x') -> freshSheet wb0 opt0 x'.
Proof.
  intros Hf Hle. unfold setCellValue, bind, lift.
  destruct (FieldByIndex v (Index field)) as [fv|]; [|by intros [= _ <-]].
  destruct fv; simpl; unfold update, ret, Cell_SetString, Cell_SetNumber, Cell_SetTime;
    try (intros [= _ <-]; by (done || apply freshSheet_setV)).
  destruct (nonEmpty _); intros [= _ <-]; by apply freshSheet_setV.
Qed.

(** A loop keeps what each of its steps keeps, whatever the outcome. *)
Lemma forEach_invariant {A} (I : Xlsx -> Prop) (body : A -> M unit) l :
  (forall a x o x', body a x = (o, x') -> I x -> I x') ->
  forall x o x', forEach l body x = (o, x') -> I x -> I x'.
Proof.
  intros Hbody. induction l as [|a l IH]; intros x o x' Hrun HI; simpl in Hrun.
  - by injection Hrun as _ <-.
  - unfold bind in Hrun. destruct (body a x) as [[[]|] x1] eqn:E.
    + eapply IH; [done|]. by eapply Hbody.
    + injection Hrun as _ <-. by eapply Hbody.
Qed.

Lemma freshSheet_writeRow wb0 opt0 fields v x o x' :
  freshSheet wb0 opt0 x -> writeRow fields v x = (o, x') -> freshSheet wb0 opt0 x'.
Proof.
  intros Hf. unfold writeRow, bind at 1, theSheet.
  pose proof Hf as (sh & extra & _ & _ & _ & Hc & _). rewrite Hc.
  unfold bind at 1, call at 1.
  pose proof (freshSheet_AddRow wb0 opt0 x Hf) as Hadd.
  destruct (Sheet_AddRow (workbook x) (length (sheets wb0))) as [r wb1].
  destruct Hadd as [Hf1 Hr]. revert Hf1. generalize (setWorkbook x wb1). clear x Hf Hc.
  intros x Hf Hrun. revert Hrun Hf. apply forEach_invariant.
  clear x o x'. intros field x o x' Hrun Hf.
  unfold bind, call in Hrun.
  pose proof (freshSheet_AddCell wb0 opt0 x r Hf Hr) as Hcell.
  destruct (Row_AddCell (workbook x) r) as [cell wb2]. destruct Hcell as [Hf2 Hc].
  eapply freshSheet_setCellValue; [exact Hf2| |exact Hrun]. by rewrite Hc.
Qed.

Lemma freshSheet_writeTitleCells wb0 opt0 r fields titles i x o x' :
  freshSheet wb0 opt0 x -> (length (rowObjects wb0) <= r)%nat ->
  writeTitleCells r fields titles i x = (o, x') -> freshSheet wb0 opt0 x'.
Proof.
  revert i x. induction fields as [|f fields IH]; intros i x Hf Hr; simpl.
  - by intros [= _ <-].
  - unfold bind at 1, call at 1.
    pose proof (freshSheet_AddCell wb0 opt0 x r Hf Hr) as Hcell.
    destruct (Row_AddCell (workbook x) r) as [cell wb2]. destruct Hcell as [Hf2 Hc].
    destruct (titles !! i) as [title|]; [|by intros [= _ <-]].
    unfold bind, update. apply IH; [|done].
    apply freshSheet_setV; [done|]. by rewrite Hc.
Qed.

Lemma freshSheet_writeTitles wb0 opt0 fields titles x o x' :
  freshSheet wb0 opt0 x -> writeTitles fields titles x = (o, x') -> freshSheet wb0 opt0 x'.
Proof.
  intros Hf. unfold writeTitles, bind at 1, theSheet.
  pose proof Hf as (sh & extra & _ & _ & _ & Hc & _). rewrite Hc.
  unfold bind at 1, call at 1.
  pose proof (freshSheet_AddRow wb0 opt0 x Hf) as Hadd.
  destruct (Sheet_AddRow (workbook x) (length (sheets wb0))) as [r wb1].
  destruct Hadd as [Hf1 Hr]. by apply freshSheet_writeTitleCells.
Qed.

(** Without template [createSheet] adds a sheet. *)
Lemma freshSheet_createSheet ttag x :
  hasTemplate x = false ->
  exists wb',
    createSheet ttag x = (Done (length (sheets (workbook x))), setWorkbook x wb')
    /\ exists sh, sheets wb' = sheets (workbook x) ++ [sh] /\ SheetData sh = []
                  /\ rowObjects wb' = rowObjects (workbook x)
                  /\ CellXfs wb' = CellXfs (workbook x).
Proof.
  intros Ht. unfold createSheet. rewrite Ht. simpl.
  destruct (nonEmpty _ && negb _); eexists; (split; [done|]); simpl.
  - unfold sheetAt. simpl. rewrite list_lookup_middle by done. simpl.
    rewrite insert_app_r_alt by done. rewrite Nat.sub_diag. simpl. by eexists.
  - by eexists.
Qed.

End FreshSheet.

Section WriteCalls.
Context `{Platform}.

Lemma Write_prepare_struct beans fds x :
  beanStruct beans = Some fds ->
  Write_prepare beans x
  = bind (createSheet (typeTag fds)) (fun sheet =>
      bind (setCurrentSheet sheet) (fun _ =>
        let fields := exportableFrom fds 0 in
        bind (locateTitles fields (collectTitles fields).1) (fun location =>
          ret {| isSlice := isSliceValue beans; fields_ := fields;
                 titles_ := (collectTitles fields).1; ttag_ := typeTag fds;
                 location_ := location;
                 customizedTitle_ :=
                   (collectTitles fields).2 && negb (isValid location) |}))) x.
Proof.
  intros Hb. unfold Write_prepare.
  assert (Hfind : findTTag (Struct fds) = Done (typeTag fds)) by done.
  destruct beans as [|fs vals|e tgt|e items|]; simpl in Hb; try done.
  - injection Hb as ->.
    unfold bind, lift, ret; simpl. fold (typeTag fds).
    by destruct (collectTitles (exportableFrom fds 0)).
  - destruct e as [fs| | |]; simpl in Hb; try done. injection Hb as ->.
    unfold bind, lift, ret; simpl. fold (typeTag fds).
    by destruct (collectTitles (exportableFrom fds 0)).
  - destruct e as [fs|e| |]; simpl in Hb; try done.
    + injection Hb as ->.
      unfold bind, lift, ret; simpl. fold (typeTag fds).
      by destruct (collectTitles (exportableFrom fds 0)).
    + destruct e as [fs| | |]; simpl in Hb; try done. injection Hb as ->.
      unfold bind, lift, ret; simpl. fold (typeTag fds).
      by destruct (collectTitles (exportableFrom fds 0)).
Qed.

Lemma Write_fresh beans fds x o x' :
  hasTemplate x = false -> beanStruct beans = Some fds ->
  Write beans x = (o, x') ->
  freshSheet (workbook x) (option_ x) x'.
Proof.
  intros Ht Hb. unfold Write, bind at 1. rewrite (Write_prepare_struct _ _ _ Hb).
  destruct (freshSheet_createSheet (typeTag fds) x Ht)
    as (wb1 & Hcreate & sh & Hsheets & Hdata & Hrows & Hxfs).
  unfold bind at 1. rewrite Hcreate.
  unfold bind at 1, setCurrentSheet at 1. simpl.
  unfold bind at 1, locateTitles at 1.
  assert (Ht2 : forall wb cs rw,
            hasTemplate {| workbook := wb; currentSheet := cs;
                           option_ := option_ x; rowsWritten := rw |} = false)
    by (intros; exact Ht).
  rewrite Ht2. simpl.
  set (x2 := Build_Xlsx _ _ _ _).
  assert (Hf : freshSheet (workbook x) (option_ x) x2).
  { exists sh, []. subst x2. simpl. rewrite app_nil_r, Hdata.
    repeat split; try done. intros r Hr. by apply elem_of_nil in Hr. }
  clearbody x2. clear Hcreate Hsheets Hdata Hrows Hxfs wb1 sh.
  rewrite andb_true_r.
  set (p := Build_prepared _ _ _ _ _ _).
  unfold bind at 1.
  destruct (Write_titles p x2) as [[[]|] x3] eqn:Etitles.
  - assert (Hf3 : freshSheet (workbook x) (option_ x) x3).
    { unfold Write_titles in Etitles. destruct (_ || _).
      - by eapply freshSheet_writeTitles.
      - by injection Etitles as <-. }
    unfold Write_rows. simpl. destruct (isSliceValue beans).
    + intros Hrun.
      eapply (forEach_invariant (freshSheet (workbook x) (option_ x)));
        [|exact Hrun|exact Hf3].
      intros bean y o' y' Hr Hy. by eapply freshSheet_writeRow.
    + intros Hrun. by eapply freshSheet_writeRow.
  - intros [= _ <-].
    unfold Write_titles in Etitles. destruct (_ || _).
    + by eapply freshSheet_writeTitles.
    + done.
Qed.

(** C10. On an instance without template file, a call of [Write] (on
    beans whose type it can handle) adds one sheet at the end of the
    workbook, makes it the current sheet and puts its rows in row
    objects added to the store: every sheet and every row object the
    workbook had, so every row and cell written by earlier calls, is as
    it was.  This holds whatever the outcome of the call.  Two
    successive calls give two sheets. *)
Theorem write_adds_fresh_sheet beans fds x o x' :
  hasTemplate x = false -> beanStruct beans = Some fds ->
  Write beans x = (o, x') ->
  (exists sh extra,
     sheets (workbook x') = sheets (workbook x) ++ [sh]
     /\ rowObjects (workbook x') = rowObjects (workbook x) ++ extra
     /\ currentSheet x' = Some (length (sheets (workbook x)))
     /\ (forall r, r ∈ SheetData sh -> (length (rowObjects (workbook x)) <= r)%nat))
  /\ (forall s old, sheets (workbook x) !! s = Some old ->
                    sheets (workbook x') !! s = Some old)
  /\ (forall r old, rowObjects (workbook x) !! r = Some old ->
                    rowObjects (workbook x') !! r = Some old)
  /\ hasTemplate x' = false
  /\ (forall beans2 fds2 o2 x'',
        beanStruct beans2 = Some fds2 -> Write beans2 x' = (o2, x'') ->
        exists sh1 sh2,
          sheets (workbook x') = sheets (workbook x) ++ [sh1]
          /\ sheets (workbook x'') = sheets (workbook x) ++ [sh1; sh2]).
Proof.
  intros Ht Hb Hrun.
  pose proof (Write_fresh _ _ _ _ _ Ht Hb Hrun)
    as (sh & extra & Hs & Hr & Hx & Hc & Ho & Hfresh).
  assert (Ht' : hasTemplate x' = false) by (unfold hasTemplate in *; by rewrite Ho).
  split; [by exists sh, extra|].
  split; [intros s old Hold; rewrite Hs; by apply lookup_app_l_Some|].
  split; [intros r old Hold; rewrite Hr; by apply lookup_app_l_Some|].
  split; [done|].
  intros beans2 fds2 o2 x'' Hb2 Hrun2.
  pose proof (Write_fresh _ _ _ _ _ Ht' Hb2 Hrun2) as (sh2 & extra2 & Hs2 & _).
  exists sh, sh2. split; [done|]. by rewrite Hs2, Hs, <- app_assoc.
Qed.

End WriteCalls.

Section AppendedRows.
Context `{Platform}.


Lemma AddCell_setV wb r v :
  setV (Row_AddCell wb r).2 (Row_AddCell wb r).1 v = alterRow (addCellWith v) wb r
  /\ (Row_AddCell wb r).2 = alterRow (addCellWith Unset) wb r.
Proof.
  split; [|done].
  destruct (decide (r < length (rowObjects wb))%nat) as [L|L].
  - unfold Row_AddCell, setV, setCell, cellAt. simpl.
    rewrite rowAt_setRow_eq by done. simpl.
    rewrite setRow_setRow. unfold alterRow, addCellWith, Row_RowNumber. f_equal. f_equal.
    rewrite list_lookup_middle by done. simpl.
    replace (length (C (rowAt wb r))) with (length (C (rowAt wb r)) + 0)%nat at 1
      by lia.
    by rewrite insert_app_r.
  - rewrite !alterRow_ge by lia.
    unfold Row_AddCell, setV, setCell; simpl. rewrite setRow_setRow. by apply setRow_ge; lia.
Qed.

Lemma writeTitleCells_run r fields titles i x :
  (i + length fields <= length titles)%nat ->
  writeTitleCells r fields titles i x
  = (Done tt,
     setWorkbook x
       (alterRow (fun y => foldl (fun y t => addCellWith (StringValue t) y) y
                             (take (length fields) (drop i titles)))
                 (workbook x) r)).
Proof.
  revert i x. induction fields as [|f fields IH]; intros i x Hlen; simpl.
  - unfold ret, alterRow. by rewrite setRow_rowAt, setWorkbook_workbook.
  - unfold bind at 1, call at 1.
    pose proof (AddCell_setV (workbook x) r) as Hset.
    destruct (Row_AddCell (workbook x) r) as [cell wb1]. simpl in Hset.
    destruct (titles !! i) as [title|] eqn:Ht.
    2:{ apply lookup_ge_None in Ht. simpl in Hlen. lia. }
    unfold bind, update. simpl.
    unfold Cell_SetString. rewrite (proj1 (Hset _)), IH by (simpl in Hlen; lia). simpl.
    rewrite alterRow_alterRow.
    by rewrite (drop_S _ _ _ Ht).
Qed.

Lemma setCellValue_AddCell r field v fv x :
  fieldOf v field = Done fv ->
  bind (call (fun wb => Row_AddCell wb r)) (fun cell => setCellValue cell field v) x
  = (Done tt, setWorkbook x (alterRow (addCellWith (recordValue v field)) (workbook x) r)).
Proof.
  intros Hfv. unfold bind at 1, call.
  pose proof (AddCell_setV (workbook x) r) as Hset.
  destruct (Row_AddCell (workbook x) r) as [cell wb1]. simpl in Hset.
  unfold setCellValue, bind, lift, recordValue. unfold fieldOf in *. rewrite Hfv.
  destruct fv; simpl; unfold update, Cell_SetString, Cell_SetNumber, Cell_SetTime, ret;
    simpl; rewrite ?(proj1 (Hset _)), ?setWorkbook_setWorkbook;
    try done; try (by rewrite (proj2 (Hset Unset))).
  destruct (nonEmpty _); simpl; by rewrite (proj1 (Hset _)).
Qed.

Lemma writeCellsAppend_run r fields v x :
  (forall f, f ∈ fields -> exists fv, fieldOf v f = Done fv) ->
  forEach fields (fun field =>
    bind (call (fun wb => Row_AddCell wb r)) (fun cell => setCellValue cell field v)) x
  = (Done tt,
     setWorkbook x
       (alterRow (fun y => foldl (fun y f => addCellWith (recordValue v f) y) y fields)
                 (workbook x) r)).
Proof.
  revert x. induction fields as [|f fields IH]; intros x Hr; simpl.
  - unfold ret, alterRow. by rewrite setRow_rowAt, setWorkbook_workbook.
  - destruct (Hr f) as [fv Hfv]; [by left|].
    unfold bind at 1. rewrite (setCellValue_AddCell _ _ _ _ _ Hfv).
    rewrite IH by (intros f' Hf'; apply Hr; by right).
    simpl. by rewrite setWorkbook_setWorkbook, alterRow_alterRow.
Qed.




End AppendedRows.

Section TitleRow.
Context `{Platform}.

Lemma collectTitlesFrom_customized fields titles customized :
  (collectTitlesFrom fields titles customized).2
  = customized || existsb (fun f => nonEmpty (Get (Tag f) "title")) fields.
Proof.
  revert titles customized. induction fields as [|f fields IH]; intros; simpl.
  - by rewrite orb_false_r.
  - destruct (nonEmpty _); rewrite IH; simpl; [by rewrite orb_true_r|done].
Qed.

Lemma collectTitles_customized fields :
  (collectTitles fields).2 = existsb (fun f => nonEmpty (Get (Tag f) "title")) fields.
Proof. unfold collectTitles. by rewrite collectTitlesFrom_customized. Qed.



End TitleRow.

Section Pointers.
Context `{Platform}.

Lemma bind_panics {A B} (m : M A) (k : A -> M B) x :
  (forall a x1, (k a x1).1 = Panic) -> (bind m k x).1 = Panic.
Proof. intros Hk. unfold bind. destruct (m x) as [[a|] x1]; [apply Hk|done]. Qed.

Lemma bind_bind {A B D} (m : M A) (f : A -> M B) (g : B -> M D) x :
  bind (bind m f) g x = bind m (fun a => bind (f a) g) x.
Proof. unfold bind. by destruct (m x) as [[a|] x1]. Qed.

Lemma bind_ext {A B} (m m' : M A) (k : A -> M B) x :
  m x = m' x -> bind m k x = bind m' k x.
Proof. unfold bind. by intros ->. Qed.

Lemma setCellValue_pointer cell field elem target x :
  setCellValue cell field (PtrValue elem target) x = (Panic, x).
Proof. done. Qed.

Lemma forEach_first_panics {A} (body : A -> M unit) a l x :
  (forall x1, (body a x1).1 = Panic) -> (forEach (a :: l) body x).1 = Panic.
Proof.
  intros Hb. simpl. unfold bind. specialize (Hb x).
  destruct (body a x) as [[[]|] x1]; simpl in *; done.
Qed.

Lemma writeRow_pointer fields elem target x :
  fields <> [] -> (writeRow fields (PtrValue elem target) x).1 = Panic.
Proof.
  intros Hf. destruct fields as [|f fields]; [done|].
  unfold writeRow. apply bind_panics. intros s x1.
  apply bind_panics. intros row x2.
  apply forEach_first_panics. intros x3.
  apply bind_panics. intros cell x4. by rewrite setCellValue_pointer.
Qed.

Lemma writeTemplateRow_pointer l elem target x :
  isValid l = true -> (writeTemplateRow l (PtrValue elem target) x).1 = Panic.
Proof.
  intros Hv. unfold isValid in Hv.
  destruct (templateCells l) as [|tc tcs] eqn:E; [done|].
  unfold writeTemplateRow. rewrite E.
  apply bind_panics. intros _ x1. apply bind_panics. intros s x2.
  apply bind_panics. intros row x3.
  unfold bind at 1.
  pose proof (forEach_first_panics
                (fun tc => bind (call (fun wb => Row_Cell wb row (cellColumn tc)))
                             (fun cell => setCellValue cell (structField tc)
                                            (PtrValue elem target)))
                tc tcs x3) as Hp.
  destruct (forEach _ _ x3) as [[[]|] x4]; simpl in *; [|done].
  exfalso. assert (Hd : @Done unit tt = Panic); [|done].
  apply Hp. intros x5. apply bind_panics. intros cell x6.
  by rewrite setCellValue_pointer.
Qed.

(** Whatever the workbook and the template, [Write] panics on a pointer
    to a struct with an exported field: only the type is dereferenced,
    the value handed to [setCellValue] is still the pointer. *)
Lemma Write_pointer_always_panics fds target x :
  exportableFrom fds 0 <> [] ->
  (Write (PtrValue (Struct fds) target) x).1 = Panic.
Proof.
  intros Hf. unfold Write.
  rewrite (bind_ext _ _ _ _
             (Write_prepare_struct (PtrValue (Struct fds) target) fds x eq_refl)).
  rewrite bind_bind. apply bind_panics. intros sheet x1.
  rewrite bind_bind. apply bind_panics. intros _ x2.
  rewrite bind_bind. apply bind_panics. intros location x3.
  unfold bind at 1, ret at 1.
  apply bind_panics. intros _ x4.
  unfold Write_rows. simpl.
  destruct (isValid location) eqn:Hv.
  - apply bind_panics. intros _ x5.
    unfold bind. pose proof (writeTemplateRow_pointer location (Struct fds) target x5 Hv) as Hp.
    destruct (writeTemplateRow _ _ x5) as [[[]|] x6]; simpl in *; done.
  - by apply writeRow_pointer.
Qed.

End Pointers.

Section Layouts.

(** ** Layouts: [strings.Replace] and [ConvertLayout] *)

Lemma append_cons c (a b : string) : String c a +:+ b = String c (a +:+ b).
Proof. done. Qed.

Lemma append_nil_l (b : string) : EmptyString +:+ b = b.
Proof. done. Qed.

Lemma append_assoc (a b c : string) : (a +:+ b) +:+ c = a +:+ (b +:+ c).
Proof.
  induction a as [|x a IH]; [done|]. rewrite !append_cons. by f_equal.
Qed.

Lemma append_nil_r (a : string) : a +:+ EmptyString = a.
Proof. induction a as [|x a IH]; [done|]. rewrite append_cons. by f_equal. Qed.

Lemma HasPrefix_nil s : strings.HasPrefix s EmptyString = true.
Proof. by destruct s. Qed.

Lemma HasPrefix_cons d s o p :
  strings.HasPrefix (String d s) (String o p)
  = if Ascii.eqb o d then strings.HasPrefix s p else false.
Proof. done. Qed.

Lemma HasPrefix_app p s : strings.HasPrefix (p +:+ s) p = true.
Proof.
  induction p as [|c p IH]; [apply HasPrefix_nil|].
  by rewrite append_cons, HasPrefix_cons, Ascii.eqb_refl.
Qed.

Lemma HasPrefix_length s p :
  strings.HasPrefix s p = true -> (String.length p <= String.length s)%nat.
Proof.
  revert s. induction p as [|c p IH]; intros s; simpl; [lia|].
  destruct s as [|d s]; [done|]. rewrite HasPrefix_cons. destruct (Ascii.eqb c d); [|done].
  intros Hp. apply IH in Hp. simpl. lia.
Qed.

Lemma HasPrefix_separator c a b old :
  occurs c old = false ->
  strings.HasPrefix (a +:+ String c b) old = strings.HasPrefix a old.
Proof.
  revert old. induction a as [|d a IH]; intros old Hc.
  - destruct old as [|o old]; [done|]. simpl in Hc.
    apply orb_false_elim in Hc as [Hc _].
    rewrite append_nil_l, HasPrefix_cons, Ascii.eqb_sym. by rewrite Hc.
  - destruct old as [|o old]; [done|]. simpl in Hc.
    apply orb_false_elim in Hc as [_ Hc].
    rewrite append_cons, !HasPrefix_cons. destruct (Ascii.eqb o d); [by apply IH|done].
Qed.

Lemma replaceFrom_cons old new c s :
  strings.replaceFrom old new (String c s) 0
  = if strings.HasPrefix (String c s) old
    then new +:+ strings.replaceFrom old new s (Nat.pred (String.length old))
    else String c (strings.replaceFrom old new s 0).
Proof. done. Qed.

(** The bytes still to drop belong to the occurrence that was matched. *)
Lemma replaceFrom_skip old new q s :
  strings.replaceFrom old new (q +:+ s) (String.length q) = strings.replaceFrom old new s 0.
Proof. induction q as [|c q IH]; [done|]. rewrite append_cons. exact IH. Qed.

Lemma replaceFrom_separator old new c a b k :
  old <> EmptyString -> occurs c old = false -> (k <= String.length a)%nat ->
  strings.replaceFrom old new (a +:+ String c b) k
  = strings.replaceFrom old new a k +:+ String c (strings.replaceFrom old new b 0).
Proof.
  intros Hold Hc. revert k. induction a as [|d a IH]; intros k Hk.
  - simpl in Hk. assert (k = 0%nat) as -> by lia.
    rewrite append_nil_l, replaceFrom_cons.
    rewrite <- (append_nil_l (String c b)), HasPrefix_separator by done.
    destruct old as [|o old]; [done|]. done.
  - rewrite append_cons. destruct k as [|k]; [|simpl in Hk; apply IH; lia].
    rewrite !replaceFrom_cons. rewrite <- append_cons.
    rewrite HasPrefix_separator by done.
    destruct (strings.HasPrefix (String d a) old) eqn:Hp.
    + apply HasPrefix_length in Hp. simpl in Hp.
      rewrite IH by (destruct old; simpl in *; [done|lia]).
      by rewrite append_assoc.
    + rewrite append_cons. by rewrite IH by lia.
Qed.

Lemma Replace_separator old new c a b :
  old <> EmptyString -> occurs c old = false ->
  strings.Replace (a +:+ String c b) old new
  = strings.Replace a old new +:+ String c (strings.Replace b old new).
Proof. intros. unfold strings.Replace. apply replaceFrom_separator; [done..|lia]. Qed.

Lemma Replace_keep old new o p s :
  occurs o p = false ->
  strings.Replace (p +:+ s) (String o old) new = p +:+ strings.Replace s (String o old) new.
Proof.
  unfold strings.Replace. induction p as [|c p IH]; intros Hp; [done|].
  simpl in Hp. apply orb_false_elim in Hp as [Hc Hp].
  rewrite !append_cons, replaceFrom_cons, HasPrefix_cons, Hc. by rewrite IH.
Qed.

Lemma Replace_hit old new o s :
  strings.Replace (String o old +:+ s) (String o old) new
  = new +:+ strings.Replace s (String o old) new.
Proof.
  unfold strings.Replace.
  rewrite append_cons, replaceFrom_cons, <- append_cons, HasPrefix_app. simpl.
  by rewrite replaceFrom_skip.
Qed.

Lemma tokenLetter_occurs c :
  tokenLetter c = false ->
  occurs c "yyyy" = false /\ occurs c "yy" = false /\ occurs c "MM" = false
  /\ occurs c "dd" = false /\ occurs c "HH" = false /\ occurs c "mm" = false
  /\ occurs c "ss" = false /\ occurs c "SSS" = false.
Proof.
  unfold tokenLetter. simpl. intros Hc.
  repeat (apply orb_false_elim in Hc as [?E Hc]).
  repeat split; simpl; by rewrite ?E, ?E0, ?E1, ?E2, ?E3, ?E4, ?E5.
Qed.

(** X15. A byte that is none of the token letters separates a layout in two
    parts that are converted on their own. *)
Theorem ConvertLayout_separator c a b :
  tokenLetter c = false ->
  ConvertLayout (a +:+ String c b) = ConvertLayout a +:+ String c (ConvertLayout b).
Proof.
  intros Hc. apply tokenLetter_occurs in Hc as (H1 & H2 & H3 & H4 & H5 & H6 & H7 & H8).
  unfold ConvertLayout.
  by rewrite !Replace_separator.
Qed.

Lemma Replace_literal old new o s :
  occurs o s = false -> strings.Replace s (String o old) new = s.
Proof.
  intros Hs. rewrite <- (append_nil_r s) at 1.
  rewrite Replace_keep by done. by rewrite append_nil_r.
Qed.

Lemma literal_occurs s o :
  literal s = true -> tokenLetter o = true -> occurs o s = false.
Proof.
  intros Hs Ho. induction s as [|c s IH]; [done|]. simpl in *.
  apply andb_prop in Hs as [Hc Hs]. rewrite IH by done. rewrite orb_false_r.
  destruct (Ascii.eqb o c) eqn:E; [|done].
  apply Ascii.eqb_eq in E as ->. by rewrite Ho in Hc.
Qed.

(** X17. [ConvertLayout] leaves a layout without token letter as it is:
    digits, punctuation and the letters other than y, M, d, H, m, s and S
    pass through. *)
Theorem ConvertLayout_literal s :
  literal s = true -> ConvertLayout s = s.
Proof.
  intros Hs. unfold ConvertLayout.
  by rewrite !(Replace_literal _ _ _ s) by (by apply literal_occurs).
Qed.

(** X16. A token at the head of a layout is translated whatever follows
    it, and the rest is converted on its own: yyyy gives 2006, MM gives
    01, dd gives 02, HH gives 15, mm gives 04, ss gives 05 and SSS gives
    000; yy gives 06 unless two more y follow it. *)
Theorem ConvertLayout_head_token s :
  ConvertLayout ("yyyy" +:+ s) = "2006" +:+ ConvertLayout s
  /\ ConvertLayout ("MM" +:+ s) = "01" +:+ ConvertLayout s
  /\ ConvertLayout ("dd" +:+ s) = "02" +:+ ConvertLayout s
  /\ ConvertLayout ("HH" +:+ s) = "15" +:+ ConvertLayout s
  /\ ConvertLayout ("mm" +:+ s) = "04" +:+ ConvertLayout s
  /\ ConvertLayout ("ss" +:+ s) = "05" +:+ ConvertLayout s
  /\ ConvertLayout ("SSS" +:+ s) = "000" +:+ ConvertLayout s
  /\ (strings.HasPrefix s "yy" = false ->
      ConvertLayout ("yy" +:+ s) = "06" +:+ ConvertLayout s).
Proof.
  unfold ConvertLayout.
  repeat split;
    try (repeat first [ rewrite Replace_hit | rewrite Replace_keep by reflexivity ];
         reflexivity).
  intros Hs.
  assert (Hy : strings.Replace ("yy" +:+ s) "yyyy" "2006"
               = "yy" +:+ strings.Replace s "yyyy" "2006").
  { unfold strings.Replace. rewrite !append_cons, append_nil_l.
    rewrite replaceFrom_cons, !HasPrefix_cons. simpl Ascii.eqb. cbv iota.
    rewrite Hs, replaceFrom_cons, !HasPrefix_cons. simpl Ascii.eqb. cbv iota.
    assert (strings.HasPrefix s "yyy" = false) as ->; [|done].
    destruct s as [|a [|b s]]; try done; rewrite !HasPrefix_cons in *;
      destruct (Ascii.eqb "y" a); try done.
    destruct (Ascii.eqb "y" b); [|done]. by rewrite HasPrefix_nil in Hs. }
  rewrite Hy.
  repeat first [ rewrite Replace_hit | rewrite Replace_keep by reflexivity ]; reflexivity.
Qed.

End Layouts.

Section Kinds.
Context `{Platform}.

(** ** The values [Write] cannot handle *)

(** On a type it cannot handle, [Write] stops at the first use of the
    type, before the sheet is chosen. *)
Lemma Write_prepare_other_kinds beans x :
  beanStruct beans = None -> Write_prepare beans x = (Panic, x).
Proof.
  intros Hb. unfold Write_prepare, bind, lift, ret.
  destruct beans as [|fs vals|e tgt|e items|]; simpl in *; try done.
  - destruct e as [fs|e| |]; simpl in *; done.
  - destruct e as [fs|e| |]; simpl in *; try done.
    destruct e as [fs|e| |]; simpl in *; done.
Qed.

(** X2. [Write] panics on a value that is not a struct, a pointer to a
    struct, or a slice of structs or of pointers to structs (the nil
    interface, a number, a map, a pointer to a slice, a slice of
    numbers, ...), and it does so before it touches the instance. *)
Theorem Write_rejects_other_kinds beans x :
  beanStruct beans = None -> Write beans x = (Panic, x).
Proof.
  intros Hb. unfold Write, bind. by rewrite Write_prepare_other_kinds.
Qed.

(** X3. [Write] panics on a slice of pointers to structs whose first
    element is there, when the struct has a field to export: the element
    type is dereferenced, the elements are not. *)
Theorem Write_slice_of_pointers_panics fds elem target items x :
  exportableFrom fds 0 <> [] ->
  (Write (SliceValue (Ptr (Struct fds)) (PtrValue elem target :: items)) x).1 = Panic.
Proof.
  intros Hf. unfold Write.
  rewrite (bind_ext _ _ _ _
             (Write_prepare_struct (SliceValue (Ptr (Struct fds)) (PtrValue elem target :: items))
                fds x eq_refl)).
  rewrite bind_bind. apply bind_panics. intros sheet x1.
  rewrite bind_bind. apply bind_panics. intros _ x2.
  rewrite bind_bind. apply bind_panics. intros location x3.
  unfold bind at 1, ret at 1.
  apply bind_panics. intros _ x4.
  unfold Write_rows. simpl.
  destruct (isValid location) eqn:Hv.
  - apply bind_panics. intros _ x5.
    unfold bind.
    pose proof (writeTemplateRow_pointer location elem target x5 Hv) as Hp.
    destruct (writeTemplateRow _ _ x5) as [[[]|] x6]; simpl in *; done.
  - unfold bind.
    pose proof (writeRow_pointer (exportableFrom fds 0) elem target x4 Hf) as Hp.
    destruct (writeRow _ _ x4) as [[[]|] x6]; simpl in *; done.
Qed.

End Kinds.

Section Fields.
Context `{Platform}.

(** ** The fields and their titles *)

Lemma exportableFrom_elem fds i f :
  f ∈ exportableFrom fds i
  <-> exists k d, fds !! k = Some d /\ exportable d = true /\ f = fieldAt (i + k) d.
Proof.
  revert i. induction fds as [|d fds IH]; intros i; simpl.
  - split; [intros Hin; by apply elem_of_nil in Hin|]. by intros (k & d & Hk & _).
  - assert (Hrest : f ∈ exportableFrom fds (S i)
                    <-> exists k d', (d :: fds) !! S k = Some d' /\ exportable d' = true
                                     /\ f = fieldAt (i + S k) d').
    { rewrite IH. by setoid_rewrite Nat.add_succ_r. }
    destruct (nonEmpty (declPkgPath d) || FieldType_eqb (declType d) TypeT) eqn:E.
    + rewrite Hrest. split.
      * intros (k & d' & ?). by exists (S k), d'.
      * intros ([|k] & d' & Hk & He & Hf); [|by exists k, d'].
        simpl in Hk. injection Hk as <-. unfold exportable in He.
        apply orb_true_iff in E. apply andb_prop in He as [He1 He2].
        destruct E as [E|E]; rewrite E in *; done.
    + rewrite elem_of_cons, Hrest. split.
      * intros [->|(k & d' & ?)]; [|by exists (S k), d'].
        exists 0%nat, d. rewrite Nat.add_0_r. split; [done|]. split; [|done].
        apply orb_false_elim in E as [E1 E2]. unfold exportable. by rewrite E1, E2.
      * intros ([|k] & d' & Hk & He & Hf); [|right; by exists k, d'].
        simpl in Hk. injection Hk as <-. left. by rewrite Nat.add_0_r in Hf.
Qed.

Lemma exportableFrom_sorted fds i a b fa fb :
  (a < b)%nat -> exportableFrom fds i !! a = Some fa -> exportableFrom fds i !! b = Some fb ->
  exists j k, Index fa = [j] /\ Index fb = [k] /\ (i <= j < k)%nat.
Proof.
  revert i a b. induction fds as [|d fds IH]; intros i a b Hab; simpl; [done|].
  destruct (nonEmpty (declPkgPath d) || FieldType_eqb (declType d) TypeT).
  - intros Ha Hb. destruct (IH (S i) a b Hab Ha Hb) as (j & k & ? & ? & ?).
    exists j, k. repeat split; try done; lia.
  - destruct a as [|a], b as [|b]; simpl; try lia.
    + intros [= <-] Hb. apply list_elem_of_lookup_2 in Hb.
      apply exportableFrom_elem in Hb as (k & d' & _ & _ & ->).
      exists i, (S i + k)%nat. simpl. repeat split; lia.
    + intros Ha Hb. destruct (IH (S i) a b) as (j & k & ? & ? & ?); [lia|done|done|].
      exists j, k. repeat split; try done; lia.
Qed.

(** X12. The fields [collectExportableFields] returns for a struct type are
    exactly the fields that are exported and are not of the marker type,
    each with the index of its declaration, in the order of the
    declarations; every one of them can be read in a struct value that
    holds one value per declared field. *)
Theorem collectExportableFields_exported fds :
  exists fields,
    collectExportableFields (Struct fds) = Done fields
    /\ (forall f, f ∈ fields
                  <-> exists k d, fds !! k = Some d /\ declPkgPath d = EmptyString
                                  /\ declType d <> TypeT /\ f = fieldAt k d)
    /\ (forall a b fa fb,
          (a < b)%nat -> fields !! a = Some fa -> fields !! b = Some fb ->
          exists j k, Index fa = [j] /\ Index fb = [k] /\ (j < k)%nat)
    /\ (forall values f,
          length values = length fds -> f ∈ fields ->
          exists k fv, Index f = [k] /\ values !! k = Some fv
                       /\ FieldByIndex (StructValue fds values) (Index f) = Done fv).
Proof.
  exists (exportableFrom fds 0). split; [done|].
  assert (Hex : forall d, exportable d = true
                          <-> declPkgPath d = EmptyString /\ declType d <> TypeT).
  { intros d. unfold exportable, nonEmpty. rewrite andb_true_iff, !negb_true_iff, negb_false_iff.
    rewrite String.eqb_eq. destruct (declType d); simpl; split; intros [? ?]; done. }
  split; [|split].
  - intros f. rewrite exportableFrom_elem. simpl.
    split.
    + intros (k & d & Hk & He & Hf). exists k, d. by apply Hex in He as [? ?].
    + intros (k & d & Hk & Hp & Ht & Hf). exists k, d.
      split; [done|]. split; [|done]. by apply Hex.
  - intros a b fa fb Hab Ha Hb.
    destruct (exportableFrom_sorted fds 0 a b fa fb Hab Ha Hb) as (j & k & ? & ? & ?).
    exists j, k. repeat split; try done; lia.
  - intros values f Hlen Hin. apply exportableFrom_elem in Hin as (k & d & Hk & _ & ->).
    simpl. apply lookup_lt_Some in Hk as Hlt.
    destruct (lookup_lt_is_Some_2 values k) as [fv Hfv]; [lia|].
    exists k, fv. by rewrite Hfv.
Qed.

Lemma collectTitlesFrom_map fields titles customized :
  collectTitlesFrom fields titles customized
  = (titles ++ map resolvedTitle fields,
     customized || existsb (fun f => nonEmpty (Get (Tag f) "title")) fields).
Proof.
  revert titles customized. induction fields as [|f fields IH]; intros; simpl.
  - by rewrite app_nil_r, orb_false_r.
  - unfold resolvedTitle at 1.
    destruct (nonEmpty (Get (Tag f) "title")); rewrite IH, <- app_assoc; simpl;
      by rewrite ?orb_true_r.
Qed.

(** X13. [collectTitles] gives one title per field, in the order of the
    fields: the [title] tag of the field, or its name when the tag is
    missing or empty.  The titles count as customized exactly when some
    field has a [title] tag that is not empty. *)
Theorem collectTitles_per_field fields :
  collectTitles fields
  = (map resolvedTitle fields,
     existsb (fun f => nonEmpty (Get (Tag f) "title")) fields).
Proof. unfold collectTitles. by rewrite collectTitlesFrom_map. Qed.

End Fields.

Section Sheets.
Context `{Platform}.

(** ** The sheet of a call *)

Lemma HasPrefix_refl s : strings.HasPrefix s s = true.
Proof. rewrite <- (append_nil_r s) at 1. apply HasPrefix_app. Qed.

Lemma Contains_unfold s sub :
  strings.Contains s sub
  = strings.HasPrefix s sub
    || match s with
       | EmptyString => false
       | String _ s' => strings.Contains s' sub
       end.
Proof. by destruct s. Qed.

Lemma Contains_prefix s sub : strings.HasPrefix s sub = true -> strings.Contains s sub = true.
Proof. intros Hp. rewrite Contains_unfold. by rewrite Hp. Qed.

Lemma Contains_refl s : strings.Contains s s = true.
Proof. apply Contains_prefix, HasPrefix_refl. Qed.

Lemma Contains_empty s : strings.Contains s EmptyString = true.
Proof. apply Contains_prefix, HasPrefix_nil. Qed.

Lemma nonEmpty_false s : nonEmpty s = false -> s = EmptyString.
Proof. unfold nonEmpty. rewrite negb_false_iff. apply String.eqb_eq. Qed.

Lemma Sheet_Name_SetName wb s name :
  (s < length (sheets wb))%nat -> Sheet_Name (Sheet_SetName wb s name) s = name.
Proof. intros Hs. unfold Sheet_Name, Sheet_SetName. by rewrite sheetAt_setSheet_eq. Qed.

(** The sheet [createSheet] works on when no sheet has the name of the
    tag: the first sheet of a template, a new sheet otherwise. *)
Lemma createSheet_unnamed ttag x :
  (if hasTemplate x
   then List.find (fun sheet => String.eqb (Sheet_Name (workbook x) sheet) (Get ttag "sheet"))
                  (Sheets (workbook x))
   else None) = None ->
  let name := Get ttag "sheet" in
  let sw := unnamedSheet x in
  createSheet ttag x
  = (Done sw.1, setWorkbook x
               (if nonEmpty name && negb (strings.Contains (Sheet_Name sw.2 sw.1) name)
                then Sheet_SetName sw.2 sw.1 name else sw.2))
  /\ (sw.1 < length (sheets sw.2))%nat
  /\ Sheet_Rows sw.2 sw.1 = Sheet_Rows (workbook x) sw.1
  /\ (forall s', s' <> sw.1 -> sheets sw.2 !! s' = sheets (workbook x) !! s')
  /\ rowObjects sw.2 = rowObjects (workbook x)
  /\ length (sheets sw.2)
     = (if hasTemplate x then Nat.max 1 (length (sheets (workbook x)))
        else S (length (sheets (workbook x))))
  /\ (hasTemplate x = true -> sw.1 = 0%nat).
Proof.
  intros Hfind name. unfold createSheet, unnamedSheet. rewrite Hfind. fold name.
  unfold Sheets. rewrite length_seq.
  destruct (hasTemplate x && (0 <? length (sheets (workbook x)))%nat) eqn:E.
  - apply andb_prop in E as [Ht E]. apply Nat.ltb_lt in E.
    rewrite lookup_seq_lt by done. simpl. rewrite Ht. repeat split; try done. lia.
  - cbn [fst snd]. split; [done|].
    set (s := length (sheets (workbook x))).
    split; [simpl; rewrite length_app; simpl; lia|].
    split.
    { unfold Sheet_Rows, sheetAt. simpl. rewrite list_lookup_middle by done.
      by rewrite (proj2 (lookup_ge_None _ _)). }
    split.
    { intros s' Hs'. simpl in *. destruct (decide (s' < length (sheets (workbook x)))%nat).
      - by rewrite lookup_app_l.
      - rewrite !(proj2 (lookup_ge_None _ _)); [done|lia|]. rewrite length_app. simpl. lia. }
    split; [done|]. simpl. rewrite length_app. simpl.
    destruct (hasTemplate x); simpl in *.
    + apply Nat.ltb_ge in E. split; [lia|]. intros _. lia.
    + split; [lia|done].
Qed.

(** X8. The sheet [createSheet] returns has a name that contains the
    [sheet] tag: the first sheet of that name in a template, otherwise the
    first sheet of the template or a new sheet, renamed to the tag unless
    its name contains it already.  The row objects and the rows of the
    sheet are as they were, and so is every other sheet. *)
Theorem createSheet_name_contains_tag ttag x :
  exists s x',
    createSheet ttag x = (Done s, x')
    /\ (s < length (sheets (workbook x')))%nat
    /\ strings.Contains (Sheet_Name (workbook x') s) (Get ttag "sheet") = true
    /\ Sheet_Rows (workbook x') s = Sheet_Rows (workbook x) s
    /\ (forall s', s' <> s -> sheets (workbook x') !! s' = sheets (workbook x) !! s')
    /\ rowObjects (workbook x') = rowObjects (workbook x)
    /\ currentSheet x' = currentSheet x /\ option_ x' = option_ x
    /\ rowsWritten x' = rowsWritten x.
Proof.
  set (name := Get ttag "sheet").
  destruct (if hasTemplate x
            then List.find (fun sheet => String.eqb (Sheet_Name (workbook x) sheet) name)
                           (Sheets (workbook x))
            else None) as [sheet|] eqn:Hfind.
  - exists sheet, x. destruct (hasTemplate x) eqn:Ht; [|done].
    apply find_Some_elem in Hfind as Hin. destruct Hin as [Hin Hname].
    split; [unfold createSheet; fold name; by rewrite Ht, Hfind|].
    split; [unfold Sheets in Hin; apply elem_of_seq in Hin; lia|].
    split; [|done]. apply String.eqb_eq in Hname. rewrite Hname. apply Contains_refl.
  - destruct (createSheet_unnamed ttag x Hfind) as (Hrun & Hs & Hrows & Hothers & Hobj & _).
    fold name in Hrun.
    destruct (unnamedSheet x) as [s wb1]. simpl in *.
    eexists _, _. split; [exact Hrun|].
    destruct (nonEmpty name && negb (strings.Contains (Sheet_Name wb1 s) name)) eqn:Er; simpl.
    + split; [by rewrite length_insert|].
      split; [rewrite Sheet_Name_SetName by done; apply Contains_refl|].
      split; [unfold Sheet_Rows, Sheet_SetName; rewrite sheetAt_setSheet_eq by done;
              exact Hrows|].
      split; [|done]. intros s' Hs'. rewrite list_lookup_insert_ne by done. by apply Hothers.
    + split; [done|]. split; [|done].
      apply andb_false_iff in Er as [Er|Er].
      * apply nonEmpty_false in Er. rewrite Er. apply Contains_empty.
      * by apply negb_false_iff in Er.
Qed.

Lemma find_seq_first (p : nat -> bool) n :
  (0 < n)%nat -> p 0%nat = true -> List.find p (seq 0 n) = Some 0%nat.
Proof. intros Hn Hp. destruct n; [lia|]. simpl. by rewrite Hp. Qed.

(** X9. With a template, [createSheet] settles on one sheet: a second call
    with the same tag returns the same sheet and changes nothing.  So the
    calls of [Write] for one type all write into the same sheet; a sheet
    is added only to a workbook that has none. *)
Theorem createSheet_template_reuses_sheet ttag x :
  hasTemplate x = true ->
  exists s x',
    createSheet ttag x = (Done s, x')
    /\ createSheet ttag x' = (Done s, x')
    /\ length (sheets (workbook x')) = Nat.max 1 (length (sheets (workbook x))).
Proof.
  intros Ht. set (name := Get ttag "sheet").
  destruct (List.find (fun sheet => String.eqb (Sheet_Name (workbook x) sheet) name)
                      (Sheets (workbook x))) as [sheet|] eqn:Hfind.
  - exists sheet, x.
    assert (Hrun : createSheet ttag x = (Done sheet, x))
      by (unfold createSheet; fold name; by rewrite Ht, Hfind).
    split; [done|]. split; [done|].
    apply find_Some_elem in Hfind as [Hin _]. unfold Sheets in Hin.
    apply elem_of_seq in Hin. lia.
  - destruct (createSheet_unnamed ttag x) as (Hrun & Hs & _ & _ & _ & Hlen & Hs0);
      [by rewrite Ht|].
    fold name in Hrun. rewrite Ht in Hlen. specialize (Hs0 Ht).
    destruct (unnamedSheet x) as [s wb1] eqn:Eu. simpl in *. subst s.
    eexists _, _. split; [exact Hrun|].
    destruct (nonEmpty name && negb (strings.Contains (Sheet_Name wb1 0%nat) name)) eqn:Er.
    + split; [|simpl; by rewrite length_insert].
      unfold createSheet. fold name.
      assert (hasTemplate (setWorkbook x (Sheet_SetName wb1 0%nat name)) = true) as ->
        by exact Ht.
      unfold Sheets. rewrite find_seq_first; [done| |].
      * simpl. rewrite length_insert. lia.
      * simpl. rewrite Sheet_Name_SetName by done. apply String.eqb_refl.
    + split; [|done].
      assert (hasTemplate (setWorkbook x wb1) = true) as Ht1 by exact Ht.
      destruct (List.find (fun sheet => String.eqb (Sheet_Name wb1 sheet) name) (Sheets wb1))
        as [sheet|] eqn:Hfind1.
      * (* the sheet has the name of the tag: it is new, and the only one *)
        assert (Hsheet : sheet = 0%nat).
        { apply find_Some_elem in Hfind1 as [Hin Hname].
          unfold unnamedSheet in Eu. rewrite Ht in Eu. simpl in Eu.
          destruct (0 <? length (sheets (workbook x)))%nat eqn:E.
          - injection Eu as <-. pose proof (find_None_elem _ _ _ Hfind Hin). simpl in *.
            congruence.
          - apply Nat.ltb_ge in E. unfold Sheets in Hin. apply elem_of_seq in Hin. lia. }
        unfold createSheet. fold name. rewrite Ht1.
        simpl workbook. rewrite Hfind1. by rewrite Hsheet.
      * destruct (createSheet_unnamed ttag (setWorkbook x wb1)) as (Hrun2 & _);
          [by rewrite Ht1|].
        fold name in Hrun2. rewrite Hrun2.
        assert (unnamedSheet (setWorkbook x wb1) = (0%nat, wb1)) as ->.
        { unfold unnamedSheet. rewrite Ht1. simpl.
          by rewrite (proj2 (Nat.ltb_lt _ _)) by lia. }
        simpl. rewrite Er. by rewrite setWorkbook_setWorkbook.
Qed.

End Sheets.

Section Appending.
Context `{Platform}.

(** ** Writing without template: the rows *)

Lemma last_imap {A B} (f : nat -> A -> B) l :
  last (imap f l) = f (Nat.pred (length l)) <$> last l.
Proof.
  induction l as [|a l IH] using rev_ind; [done|].
  rewrite imap_app, !last_snoc. simpl. rewrite length_app. simpl.
  rewrite last_snoc. do 2 f_equal. lia.
Qed.

Lemma addCellWith_appended n vs v :
  addCellWith v (appendedRow n vs) = appendedRow n (vs ++ [v]).
Proof.
  unfold addCellWith, appendedRow. simpl. f_equal.
  rewrite imap_app. simpl. f_equal. unfold appendedCell. rewrite Nat.add_0_r.
  do 3 f_equal. unfold nextColumn. simpl. rewrite last_imap, length_imap.
  destruct (last vs) as [v'|] eqn:E; simpl.
  - unfold hasReference. simpl.
    replace (length vs - 1)%nat with (Nat.pred (length vs)) by lia.
    by rewrite String.eqb_refl, Z.eqb_refl.
  - apply last_None in E. by subst vs.
Qed.

Lemma foldl_addCellWith_appended {A} (g : A -> CellValue) n vs l :
  foldl (fun y a => addCellWith (g a) y) (appendedRow n vs) l
  = appendedRow n (vs ++ map g l).
Proof.
  revert vs. induction l as [|a l IH]; intros vs; simpl.
  - by rewrite app_nil_r.
  - by rewrite addCellWith_appended, IH, <- app_assoc.
Qed.

Lemma insertRow_last wb num r rows :
  (forall r', r' ∈ rows ->
     match rowRAttr (rowAt wb r') with Some n => n <= num | None => True end) ->
  insertRow wb num r rows = rows ++ [r].
Proof.
  induction rows as [|a rows IH]; intros Hle; simpl; [done|].
  pose proof (Hle a) as Ha.
  rewrite IH by (intros r' Hr'; apply Hle; by right).
  destruct (rowRAttr (rowAt wb a)) as [n|]; [|done].
  specialize (Ha ltac:(by left)).
  by rewrite (proj2 (Z.ltb_ge _ _)) by done.
Qed.

Lemma appended_length s lines x :
  appended s lines x -> length (Sheet_Rows (workbook x) s) = length lines.
Proof.
  intros (_ & _ & Hrows & _).
  apply (f_equal length) in Hrows. by rewrite length_map, length_imap in Hrows.
Qed.

Lemma appended_number s lines x k r :
  appended s lines x -> Sheet_Rows (workbook x) s !! k = Some r ->
  rowRAttr (rowAt (workbook x) r) = Some (Z.of_nat k + 1).
Proof.
  intros (_ & _ & Hrows & _) Hk.
  apply (f_equal (fun l => l !! k)) in Hrows.
  rewrite list_lookup_fmap, Hk, list_lookup_imap in Hrows. simpl in Hrows.
  destruct (lines !! k); simpl in Hrows; [|done].
  injection Hrows as ->. done.
Qed.

(** [s.AddRow()] on a sheet whose rows are numbered from 1: the new row
    comes last and has the next number. *)
Lemma Sheet_AddRow_appended s lines x :
  appended s lines x -> Z.of_nat (length lines) + 1 < 2 ^ 32 ->
  exists wb1,
    Sheet_AddRow (workbook x) s = (length (rowObjects (workbook x)), wb1)
    /\ rowObjects wb1
       = rowObjects (workbook x) ++ [appendedRow (Z.of_nat (length lines) + 1) []]
    /\ Sheet_Rows wb1 s = Sheet_Rows (workbook x) s ++ [length (rowObjects (workbook x))]
    /\ length (sheets wb1) = length (sheets (workbook x)).
Proof.
  intros Ha Hbound. pose proof (appended_length _ _ _ Ha) as Hlen.
  pose proof Ha as (Hc & Hs & Hrows & Hlt).
  unfold Sheet_AddRow.
  set (rows := Sheet_Rows (workbook x) s) in *.
  assert (Hnum : uint32 (Z.of_nat (length rows)) = Z.of_nat (length lines)).
  { unfold uint32. rewrite Hlen. apply Z.mod_small. lia. }
  rewrite Hnum.
  assert (Hfast : (if match last rows with
                     | Some r => (0 <? Z.of_nat (length lines))
                                 && hasRowNumber (workbook x) (Z.of_nat (length lines)) r
                     | None => false
                     end
                  then Z.of_nat (length lines) else maxRowID (workbook x) rows)
                 = Z.of_nat (length lines)).
  { destruct (last rows) as [r|] eqn:E.
    - apply last_Some in E as [rows' E].
      assert (Hr : rows !! length rows' = Some r) by (by rewrite E, list_lookup_middle).
      pose proof (appended_number _ _ _ _ _ Ha Hr) as Hn.
      assert (Hk : Z.of_nat (length rows') + 1 = Z.of_nat (length lines)).
      { rewrite <- Hlen, E, length_app. simpl. lia. }
      unfold hasRowNumber. rewrite Hn, Hk, Z.eqb_refl, andb_true_r.
      by rewrite (proj2 (Z.ltb_lt _ _)) by lia.
    - apply last_None in E. rewrite E in *. simpl in Hlen. by rewrite <- Hlen. }
  rewrite Hfast.
  assert (Hnext : uint32 (Z.of_nat (length lines) + 1) = Z.of_nat (length lines) + 1)
    by (unfold uint32; apply Z.mod_small; lia).
  rewrite Hnext. unfold Sheet_AddNumberedRow.
  set (wb' := Build_Workbook _ _ _).
  eexists. split; [done|]. split; [done|].
  rewrite Sheet_Rows_setSheetData by done.
  split; [|simpl; by rewrite length_insert].
  change (Sheet_Rows wb' s) with rows.
  apply insertRow_last. intros r' Hr'.
  assert (Hold : rowAt wb' r' = rowAt (workbook x) r').
  { unfold rowAt, wb'. simpl. rewrite lookup_app_l; [done|]. by apply Hlt. }
  rewrite Hold. apply list_elem_of_lookup in Hr' as [k Hk].
  rewrite (appended_number _ _ _ _ _ Ha Hk).
  apply lookup_lt_Some in Hk. lia.
Qed.

Lemma appended_line {A} s lines x (g : A -> CellValue) l wb1 :
  appended s lines x ->
  rowObjects wb1
  = rowObjects (workbook x) ++ [appendedRow (Z.of_nat (length lines) + 1) []] ->
  Sheet_Rows wb1 s = Sheet_Rows (workbook x) s ++ [length (rowObjects (workbook x))] ->
  length (sheets wb1) = length (sheets (workbook x)) ->
  appended s (lines ++ [map g l])
    (setWorkbook x
       (alterRow (fun y => foldl (fun y a => addCellWith (g a) y) y l) wb1
                 (length (rowObjects (workbook x))))).
Proof.
  intros (Hc & Hs & Hrows & Hlt) Hobj Hdata Hsheets.
  set (r := length (rowObjects (workbook x))) in *.
  assert (Hr : (r < length (rowObjects wb1))%nat)
    by (rewrite Hobj, length_app; simpl; lia).
  split; [done|]. split; [simpl; lia|]. simpl. split.
  - unfold Sheet_Rows, sheetAt. rewrite alterRow_sheets.
    fold (sheetAt wb1 s). fold (Sheet_Rows wb1 s). rewrite Hdata.
    rewrite map_app, imap_app. simpl. f_equal.
    + rewrite <- Hrows. apply map_ext_in. intros r' Hr'%list_elem_of_In.
      specialize (Hlt r' Hr'). rewrite rowAt_alterRow, decide_False by lia.
      unfold rowAt. by rewrite Hobj, lookup_app_l.
    + rewrite rowAt_alterRow, decide_True by done.
      assert (rowAt wb1 r = appendedRow (Z.of_nat (length lines) + 1) []) as ->
        by (unfold rowAt; by rewrite Hobj, list_lookup_middle).
      rewrite foldl_addCellWith_appended. simpl. by rewrite Nat.add_0_r.
  - intros r'. rewrite length_insert. unfold Sheet_Rows, sheetAt. rewrite alterRow_sheets.
    fold (sheetAt wb1 s). fold (Sheet_Rows wb1 s). rewrite Hdata.
    intros [Hin|Hin%list_elem_of_singleton]%elem_of_app.
    + specialize (Hlt r' Hin). lia.
    + by subst r'.
Qed.

Lemma writeTitles_appended s lines fields titles x :
  appended s lines x -> Z.of_nat (length lines) + 1 < 2 ^ 32 ->
  (length fields <= length titles)%nat ->
  exists x',
    writeTitles fields titles x = (Done tt, x')
    /\ appended s (lines ++ [map StringValue (take (length fields) titles)]) x'
    /\ option_ x' = option_ x /\ rowsWritten x' = rowsWritten x.
Proof.
  intros Ha Hbound Hlen.
  destruct (Sheet_AddRow_appended s lines x Ha Hbound) as (wb1 & Hadd & Hobj & Hdata & Hsh).
  unfold writeTitles, bind at 1, theSheet. rewrite (proj1 Ha).
  unfold bind, call. rewrite Hadd.
  rewrite writeTitleCells_run by (simpl; lia). simpl.
  rewrite setWorkbook_setWorkbook. eexists. split; [done|].
  split; [|done]. by apply appended_line.
Qed.

Lemma writeRow_appended s lines fields v x :
  appended s lines x -> Z.of_nat (length lines) + 1 < 2 ^ 32 ->
  (forall f, f ∈ fields -> exists fv, fieldOf v f = Done fv) ->
  exists x',
    writeRow fields v x = (Done tt, x')
    /\ appended s (lines ++ [map (recordValue v) fields]) x'
    /\ option_ x' = option_ x /\ rowsWritten x' = rowsWritten x.
Proof.
  intros Ha Hbound Hread.
  destruct (Sheet_AddRow_appended s lines x Ha Hbound) as (wb1 & Hadd & Hobj & Hdata & Hsh).
  unfold writeRow, bind at 1, theSheet. rewrite (proj1 Ha).
  unfold bind at 1, call at 1. rewrite Hadd.
  rewrite writeCellsAppend_run by done. simpl.
  rewrite setWorkbook_setWorkbook. eexists. split; [done|].
  split; [|done]. by apply appended_line.
Qed.

Lemma writeRows_appended s fields vs lines x :
  appended s lines x -> Z.of_nat (length lines) + Z.of_nat (length vs) < 2 ^ 32 ->
  (forall v f, v ∈ vs -> f ∈ fields -> exists fv, fieldOf v f = Done fv) ->
  exists x',
    forEach vs (fun bean => writeRow fields bean) x = (Done tt, x')
    /\ appended s (lines ++ map (fun v => map (recordValue v) fields) vs) x'
    /\ option_ x' = option_ x /\ rowsWritten x' = rowsWritten x.
Proof.
  revert lines x. induction vs as [|v vs IH]; intros lines x Ha Hbound Hread; simpl.
  - exists x. by rewrite app_nil_r.
  - destruct (writeRow_appended s lines fields v x Ha) as (x1 & Hrun & Ha1 & Ho1 & Hw1).
    { simpl in Hbound. lia. }
    { intros f Hf. apply Hread; [by left|done]. }
    destruct (IH _ x1 Ha1) as (x' & Hrun' & Ha' & Ho' & Hw').
    { rewrite length_app. simpl in *. lia. }
    { intros v' f Hv' Hf. apply Hread; [by right|done]. }
    exists x'. unfold bind. rewrite Hrun, Hrun'. rewrite <- app_assoc in Ha'.
    split; [done|]. split; [done|]. split; congruence.
Qed.

Lemma recordOf_readable fds v f :
  recordOf fds v -> f ∈ exportableFrom fds 0 -> exists fv, fieldOf v f = Done fv.
Proof.
  intros (values & -> & Hlen) (k & d & Hk & _ & ->)%exportableFrom_elem.
  unfold fieldOf. simpl. apply lookup_lt_Some in Hk.
  destruct (lookup_lt_is_Some_2 values k) as [fv Hfv]; [lia|].
  exists fv. by rewrite Hfv.
Qed.

(** X4. Without template, on a struct value or a slice of struct values
    (each with one value per declared field), [Write] returns without
    panic and leaves the new sheet with one row per line: the titles when
    a title row is due, then the records in their order.  The rows are
    numbered from 1, and the cells of a row are in the columns A, B, ...
    in the order of the exported fields, without style; the cell of a
    field holds the value stored for it, and no value when the field is
    of a kind the writer does not store. *)
Theorem Write_appends_records beans fds x :
  hasTemplate x = false -> beanStruct beans = Some fds ->
  (forall v, v ∈ beanRecords beans -> recordOf fds v) ->
  Z.of_nat (length (beanRecords beans)) + 1 < 2 ^ 32 ->
  let fields := exportableFrom fds 0 in
  let emit := existsb (fun f => nonEmpty (Get (Tag f) "title")) fields
              || nonEmpty (Get (typeTag fds) "title") in
  let lines := (if emit then [map (fun f => StringValue (resolvedTitle f)) fields] else [])
               ++ map (fun v => map (recordValue v) fields) (beanRecords beans) in
  exists x',
    Write beans x = (Done tt, x')
    /\ currentSheet x' = Some (length (sheets (workbook x)))
    /\ map (rowAt (workbook x')) (Sheet_Rows (workbook x') (length (sheets (workbook x))))
       = imap (fun k vs => appendedRow (Z.of_nat k + 1) vs) lines.
Proof.
  intros Ht Hb Hrec Hbound fields emit lines.
  set (s := length (sheets (workbook x))).
  unfold Write, bind at 1. rewrite (Write_prepare_struct _ _ _ Hb).
  destruct (freshSheet_createSheet (typeTag fds) x Ht)
    as (wb1 & Hcreate & sh & Hsheets & Hdata & Hrows & Hxfs).
  unfold bind at 1. rewrite Hcreate.
  unfold bind at 1, setCurrentSheet at 1. simpl.
  unfold bind at 1, locateTitles at 1.
  assert (Ht2 : forall wb cs rw,
            hasTemplate {| workbook := wb; currentSheet := cs;
                           option_ := option_ x; rowsWritten := rw |} = false)
    by (intros; exact Ht).
  rewrite Ht2. simpl. fold s. fold fields.
  set (x2 := Build_Xlsx _ _ _ _).
  assert (Ha : appended s [] x2).
  { assert (Hempty : Sheet_Rows wb1 s = []).
    { unfold Sheet_Rows, sheetAt. subst s. by rewrite Hsheets, list_lookup_middle. }
    split; [done|]. split; [subst x2 s; simpl; rewrite Hsheets, length_app; simpl; lia|].
    subst x2. simpl. rewrite Hempty. split; [done|]. intros r Hr. by apply elem_of_nil in Hr. }
  clearbody x2. clear Hcreate Hsheets Hdata Hrows Hxfs wb1 sh.
  rewrite andb_true_r.
  assert (Htitles : (collectTitles fields).1 = map resolvedTitle fields)
    by (unfold collectTitles; by rewrite collectTitlesFrom_map).
  assert (Hcust : (collectTitles fields).2
                  = existsb (fun f => nonEmpty (Get (Tag f) "title")) fields)
    by apply collectTitles_customized.
  rewrite Htitles, Hcust.
  set (p := Build_prepared _ _ _ _ _ _).
  assert (Hstep1 : exists x3,
             Write_titles p x2 = (Done tt, x3)
             /\ appended s (if emit then [map (fun f => StringValue (resolvedTitle f)) fields]
                            else []) x3).
  { unfold Write_titles. simpl. fold emit. destruct emit.
    - destruct (writeTitles_appended s [] fields (map resolvedTitle fields) x2 Ha)
        as (x3 & Hrun & Ha3 & _); [simpl; lia|by rewrite length_map|].
      exists x3. split; [done|].
      rewrite firstn_all2 in Ha3 by (by rewrite length_map).
      by rewrite map_map in Ha3.
    - by exists x2. }
  destruct Hstep1 as (x3 & Hrun3 & Ha3).
  unfold bind at 1. rewrite Hrun3.
  assert (Hlines : Z.of_nat (length (if emit
                      then [map (fun f => StringValue (resolvedTitle f)) fields] else []))
                   <= 1) by (destruct emit; simpl; lia).
  assert (Hread : forall v f, v ∈ beanRecords beans -> f ∈ fields ->
                              exists fv, fieldOf v f = Done fv).
  { intros v f Hv Hf. eapply recordOf_readable; [by apply Hrec|done]. }
  unfold Write_rows. simpl. unfold beanRecords in *.
  destruct (isSliceValue beans).
  - destruct (writeRows_appended s fields (Items beans) _ x3 Ha3) as (x' & Hrun & Ha' & _);
      [lia|done|].
    exists x'. split; [done|]. split; [apply Ha'|apply Ha'].
  - destruct (writeRow_appended s _ fields beans x3 Ha3) as (x' & Hrun & Ha' & _).
    { lia. }
    { intros f Hf. apply Hread; [by left|done]. }
    exists x'. split; [done|]. split; [apply Ha'|apply Ha'].
Qed.

End Appending.

Section Options.
Context `{Platform}.

(** ** The options *)

Lemma optionFree_bind {A B} (m : M A) (k : A -> M B) :
  optionFree m -> (forall a, optionFree (k a)) -> optionFree (bind m k).
Proof.
  intros Hm Hk o x. unfold bind. rewrite Hm.
  destruct (m x) as [[a|] x1]; simpl; [apply Hk|done].
Qed.

Lemma optionFree_ret {A} (a : A) : optionFree (ret a).
Proof. done. Qed.

Lemma optionFree_lift {A} (r : outcome A) : optionFree (lift r).
Proof. done. Qed.

Lemma optionFree_call {A} (f : Workbook -> A * Workbook) : optionFree (call f).
Proof. intros o x. unfold call. simpl. by destruct (f (workbook x)). Qed.

Lemma optionFree_update f : optionFree (update f).
Proof. done. Qed.

Lemma optionFree_theSheet : optionFree theSheet.
Proof. intros o x. unfold theSheet. simpl. by destruct (currentSheet x). Qed.

Lemma optionFree_forEach {A} (body : A -> M unit) l :
  (forall a, optionFree (body a)) -> optionFree (forEach l body).
Proof.
  intros Hbody. induction l as [|a l IH]; simpl; [apply optionFree_ret|].
  apply optionFree_bind; [apply Hbody|done].
Qed.

Lemma optionFree_setCellValue cell field value : optionFree (setCellValue cell field value).
Proof.
  unfold setCellValue. apply optionFree_bind; [apply optionFree_lift|].
  intros []; try apply optionFree_update; try apply optionFree_ret.
  destruct (nonEmpty _); apply optionFree_update.
Qed.

Lemma optionFree_writeRow fields value : optionFree (writeRow fields value).
Proof.
  unfold writeRow. apply optionFree_bind; [apply optionFree_theSheet|]. intros s.
  apply optionFree_bind; [apply optionFree_call|]. intros row.
  apply optionFree_forEach. intros field.
  apply optionFree_bind; [apply optionFree_call|]. intros cell.
  apply optionFree_setCellValue.
Qed.

Lemma optionFree_writeTitleCells row fields titles i :
  optionFree (writeTitleCells row fields titles i).
Proof.
  revert i. induction fields as [|f fields IH]; intros i; simpl; [apply optionFree_ret|].
  apply optionFree_bind; [apply optionFree_call|]. intros cell.
  destruct (titles !! i); [|done].
  apply optionFree_bind; [apply optionFree_update|]. intros _. apply IH.
Qed.

Lemma optionFree_writeTitles fields titles : optionFree (writeTitles fields titles).
Proof.
  unfold writeTitles. apply optionFree_bind; [apply optionFree_theSheet|]. intros s.
  apply optionFree_bind; [apply optionFree_call|]. intros row.
  apply optionFree_writeTitleCells.
Qed.

(** On a workbook without sheet, [createSheet] adds a sheet, with or
    without template. *)
Lemma createSheet_no_sheet ttag x :
  sheets (workbook x) = [] ->
  createSheet ttag x
  = (Done 0%nat,
     setWorkbook x
       (let wb1 := (AddSheet (workbook x)).2 in
        if nonEmpty (Get ttag "sheet")
           && negb (strings.Contains (Sheet_Name wb1 0%nat) (Get ttag "sheet"))
        then Sheet_SetName wb1 0%nat (Get ttag "sheet") else wb1)).
Proof.
  intros Hs.
  destruct (createSheet_unnamed ttag x) as [Hrun _].
  { unfold Sheets. rewrite Hs. simpl. destruct (hasTemplate x); reflexivity. }
  assert (Hu : unnamedSheet x = (0%nat, (AddSheet (workbook x)).2)).
  { unfold unnamedSheet. rewrite Hs. simpl length. rewrite andb_false_r.
    unfold AddSheet. simpl. by rewrite Hs. }
  rewrite Hrun. by rewrite Hu.
Qed.

(** On a sheet without row, [locateTitles] finds no location, with or
    without template. *)
Lemma locateTitles_no_row fields titles x s :
  currentSheet x = Some s -> Sheet_Rows (workbook x) s = [] ->
  exists l, locateTitles fields titles x = (Done l, x) /\ isValid l = false.
Proof.
  intros Hs Hrows. unfold locateTitles. destruct (hasTemplate x); simpl.
  - unfold bind at 1, theSheet at 1. rewrite Hs.
    unfold bind at 1, read at 1. rewrite Hrows. simpl.
    eexists. split; [reflexivity|done].
  - by exists noLocation.
Qed.

Lemma Write_no_sheet_run beans fds x :
  beanStruct beans = Some fds -> sheets (workbook x) = [] ->
  Write beans x
  = bind (Write_titles (appendPlan beans fds))
         (fun _ => Write_rows (appendPlan beans fds) beans) (firstSheet (typeTag fds) x).
Proof.
  intros Hb Hs. unfold Write. unfold bind at 1. rewrite (Write_prepare_struct _ _ _ Hb).
  unfold bind at 1. rewrite createSheet_no_sheet by done.
  unfold bind at 1, setCurrentSheet. simpl.
  change (Build_Xlsx _ _ _ _) with (firstSheet (typeTag fds) x).
  set (fields := exportableFrom fds 0).
  destruct (locateTitles_no_row fields (collectTitles fields).1 (firstSheet (typeTag fds) x)
              0%nat eq_refl) as (l & Hl & Hv).
  { unfold firstSheet, Sheet_Rows. simpl. destruct (nonEmpty _ && negb _); simpl;
      unfold sheetAt; simpl; rewrite Hs; done. }
  unfold bind at 1. rewrite Hl. unfold ret. rewrite Hv, andb_true_r.
  set (p := Build_prepared _ _ _ _ l _).
  change (Write_titles p) with (Write_titles (appendPlan beans fds)).
  assert (Write_rows p beans = Write_rows (appendPlan beans fds) beans) as ->; [|done].
  unfold Write_rows. simpl. by rewrite Hv.
Qed.

(** On a workbook without sheet, the options make no difference to
    [Write]. *)
Lemma Write_no_sheet beans o x :
  sheets (workbook x) = [] ->
  Write beans (withOption o x) = ((Write beans x).1, withOption o (Write beans x).2).
Proof.
  intros Hs. destruct (beanStruct beans) as [fds|] eqn:Hb.
  2:{ unfold Write, bind. by rewrite !Write_prepare_other_kinds. }
  rewrite !(Write_no_sheet_run _ _ _ Hb) by done.
  change (firstSheet (typeTag fds) (withOption o x))
    with (withOption o (firstSheet (typeTag fds) x)).
  apply optionFree_bind.
  - unfold Write_titles. destruct (_ || _); [apply optionFree_writeTitles|apply optionFree_ret].
  - intros _. unfold Write_rows. simpl. destruct (isSliceValue beans).
    + apply optionFree_forEach. intros bean. apply optionFree_writeRow.
    + apply optionFree_writeRow.
Qed.

(** X10. When the template file of the options cannot be opened, [New]
    falls back to a blank workbook, and the first call of [Write] does
    what it does on an instance made without option: same outcome, same
    workbook, same current sheet. *)
Theorem New_template_not_opened Open optionFns beans :
  Open (TemplateFile (createOption optionFns)) = None ->
  let x := New Open optionFns in
  let y := New Open [] in
  workbook x = spreadsheet.New
  /\ Write beans x = ((Write beans y).1, withOption (createOption optionFns) (Write beans y).2).
Proof.
  intros Hopen x y.
  assert (Hx : x = withOption (createOption optionFns) y).
  { subst x y. unfold New, withOption. simpl. rewrite Hopen.
    by destruct (nonEmpty (TemplateFile (createOption optionFns))). }
  split; [by rewrite Hx|].
  rewrite Hx. by apply Write_no_sheet.
Qed.

(** X11. [New] applies the options in their order, so the template file is
    the one of the last [WithTemplate]; an empty name means no template.
    The workbook is the one opened from that file, and a blank workbook
    when there is no template or the file cannot be opened; no sheet is
    current and no row is counted. *)
Theorem New_last_option_wins Open optionFns templateFile :
  let x := New Open (optionFns ++ [WithTemplate templateFile]) in
  TemplateFile (option_ x) = templateFile
  /\ hasTemplate x = nonEmpty templateFile
  /\ workbook x = (if nonEmpty templateFile
                   then default spreadsheet.New (Open templateFile)
                   else spreadsheet.New)
  /\ currentSheet x = None /\ rowsWritten x = 0
  /\ hasTemplate (New Open []) = false.
Proof.
  unfold New, createOption, hasTemplate. rewrite foldl_app. simpl.
  repeat split. by destruct (nonEmpty templateFile).
Qed.

End Options.

Section Positions.
Context `{Platform}.

(** ** Writing into a template: the rows and their values *)



Lemma consecutive_take wb rows n : consecutive wb rows -> consecutive wb (take n rows).
Proof.
  intros Hc k r Hk. apply Hc. apply lookup_take_Some in Hk. tauto.
Qed.












End Positions.

Section StyleCycle.
Context `{Platform}.

(** ** Writing into a template: the styles *)






End StyleCycle.

Section Totality.
Context `{Platform}.

(** ** No panic on struct values *)


Lemma located_index wb fields titles rows : -1 <= titledRowIndex (located wb fields titles rows).
Proof. unfold located. destruct (findIndex _ rows); simpl; lia. Qed.






End Totality.

Section Frame.
Context `{Platform}.

(** ** What [setCellValue] leaves alone *)

Lemma setV_frame wb cell v :
  sheets (setV wb cell v) = sheets wb
  /\ CellXfs (setV wb cell v) = CellXfs wb
  /\ length (rowObjects (setV wb cell v)) = length (rowObjects wb)
  /\ (forall r, rowRAttr (rowAt (setV wb cell v) r) = rowRAttr (rowAt wb r)
                /\ length (C (rowAt (setV wb cell v) r)) = length (C (rowAt wb r)))
  /\ (forall c, RAttr (cellAt (setV wb cell v) c) = RAttr (cellAt wb c)
                /\ SAttr (cellAt (setV wb cell v) c) = SAttr (cellAt wb c)
                /\ (c <> cell -> cellAt (setV wb cell v) c = cellAt wb c)).
Proof.
  split; [done|]. split; [done|].
  split; [unfold setV, setCell, setRow; simpl; by rewrite length_insert|].
  assert (Hrow : forall r,
            rowAt (setV wb cell v) r
            = if decide (r = cell.1)
              then {| rowRAttr := rowRAttr (rowAt wb r);
                      C := <[cell.2 := {| RAttr := RAttr (cellAt wb cell); V := v;
                                         SAttr := SAttr (cellAt wb cell) |}]> (C (rowAt wb r)) |}
              else rowAt wb r).
  { intros r. unfold setV, setCell. case_decide as Hd.
    - subst r. destruct (decide (cell.1 < length (rowObjects wb))%nat) as [L|L].
      + by rewrite rowAt_setRow_eq.
      + rewrite setRow_ge by lia.
        assert (Hempty : rowAt wb cell.1 = emptyRow).
        { unfold rowAt. by rewrite (proj2 (lookup_ge_None _ _)) by lia. }
        rewrite Hempty. done.
    - by rewrite rowAt_setRow_ne. }
  split.
  - intros r. rewrite Hrow. case_decide; [|done]. simpl. by rewrite length_insert.
  - intros c. unfold cellAt. rewrite Hrow. case_decide as Hd; [|done]. simpl.
    destruct (decide (c = cell)) as [->|Hne].
    + destruct (decide (cell.2 < length (C (rowAt wb cell.1)))%nat) as [L|L].
      * rewrite list_lookup_insert_eq by done. simpl.
        split; [done|]. split; [done|]. intros Hc. by destruct Hc.
      * rewrite list_insert_ge by lia. split; [done|]. split; done.
    + rewrite list_lookup_insert_ne.
      * rewrite Hd. split; [done|]. split; done.
      * intros E. apply Hne. destruct c, cell; simpl in *; congruence.
Qed.

(** X14. [setCellValue] changes the value of the one cell at most: whatever
    the field value, and also when it panics, every cell keeps its
    reference and its style, every other cell keeps its value, and the
    sheets, the rows and the rest of the instance are as they were. *)
Theorem setCellValue_changes_one_value cell field value x o x' :
  setCellValue cell field value x = (o, x') ->
  sheets (workbook x') = sheets (workbook x)
  /\ CellXfs (workbook x') = CellXfs (workbook x)
  /\ length (rowObjects (workbook x')) = length (rowObjects (workbook x))
  /\ (forall r, rowRAttr (rowAt (workbook x') r) = rowRAttr (rowAt (workbook x) r)
                /\ length (C (rowAt (workbook x') r)) = length (C (rowAt (workbook x) r)))
  /\ (forall c, RAttr (cellAt (workbook x') c) = RAttr (cellAt (workbook x) c)
                /\ SAttr (cellAt (workbook x') c) = SAttr (cellAt (workbook x) c)
                /\ (c <> cell -> cellAt (workbook x') c = cellAt (workbook x) c))
  /\ currentSheet x' = currentSheet x /\ option_ x' = option_ x
  /\ rowsWritten x' = rowsWritten x.
Proof.
  assert (Hid : forall y : Xlsx,
            sheets (workbook y) = sheets (workbook y)
            /\ CellXfs (workbook y) = CellXfs (workbook y)
            /\ length (rowObjects (workbook y)) = length (rowObjects (workbook y))
            /\ (forall r, rowRAttr (rowAt (workbook y) r) = rowRAttr (rowAt (workbook y) r)
                          /\ length (C (rowAt (workbook y) r)) = length (C (rowAt (workbook y) r)))
            /\ (forall c, RAttr (cellAt (workbook y) c) = RAttr (cellAt (workbook y) c)
                          /\ SAttr (cellAt (workbook y) c) = SAttr (cellAt (workbook y) c)
                          /\ (c <> cell -> cellAt (workbook y) c = cellAt (workbook y) c))
            /\ currentSheet y = currentSheet y /\ option_ y = option_ y
            /\ rowsWritten y = rowsWritten y) by done.
  assert (Hset : forall v,
            let y := setWorkbook x (setV (workbook x) cell v) in
            sheets (workbook y) = sheets (workbook x)
            /\ CellXfs (workbook y) = CellXfs (workbook x)
            /\ length (rowObjects (workbook y)) = length (rowObjects (workbook x))
            /\ (forall r, rowRAttr (rowAt (workbook y) r) = rowRAttr (rowAt (workbook x) r)
                          /\ length (C (rowAt (workbook y) r)) = length (C (rowAt (workbook x) r)))
            /\ (forall c, RAttr (cellAt (workbook y) c) = RAttr (cellAt (workbook x) c)
                          /\ SAttr (cellAt (workbook y) c) = SAttr (cellAt (workbook x) c)
                          /\ (c <> cell -> cellAt (workbook y) c = cellAt (workbook x) c))
            /\ currentSheet y = currentSheet x /\ option_ y = option_ x
            /\ rowsWritten y = rowsWritten x).
  { intros v. simpl.
    destruct (setV_frame (workbook x) cell v) as (Hsheets & Hxfs & Hlen & Hrows & Hcells).
    repeat split; try done; try apply Hrows; try apply Hcells. }
  unfold setCellValue, bind, lift.
  destruct (FieldByIndex value (Index field)) as [fv|]; [|intros [= _ <-]; apply Hid].
  destruct fv; simpl; unfold update, ret, Cell_SetString, Cell_SetNumber, Cell_SetTime;
    try (intros [= _ <-]; first [apply Hid | apply Hset]).
  destruct (nonEmpty _); intros [= _ <-]; apply Hset.
Qed.

End Frame.

Section RoundTrip.
Context `{Platform}.

(** ** The title row, written and located *)



End RoundTrip.

(* ------------------------------------------------------------------ *)
(** * Worked instances: witnesses and counterexamples                  *)
(* ------------------------------------------------------------------ *)














(** C9: the code does not do what the claim says.  [Write] takes the
    element type behind a pointer, but hands the pointer itself to
    [setCellValue], where [FieldByIndex] panics; the same record passed by
    value is written. *)
Theorem Write_pointer_panics :
  (Write (PtrValue (Struct memberStat) (Some (member 100 50))) blankX).1 = Panic
  /\ (Write (member 100 50) blankX).1 = Done tt
  /\ (Write (PtrValue (Struct memberStat) (Some (member 100 50))) templateX).1 = Panic
  /\ (Write (member 100 50) templateX).1 = Done tt.
Proof. repeat split; vm_compute; reflexivity. Qed.

(** C10, on a blank workbook. *)
Lemma write_adds_fresh_sheet_witness :
  hasTemplate blankX = false
  /\ beanStruct members = Some memberStat
  /\ exists sh extra,
       sheets (workbook (Write members blankX).2) = sheets (workbook blankX) ++ [sh]
       /\ rowObjects (workbook (Write members blankX).2)
          = rowObjects (workbook blankX) ++ extra.
Proof.
  split; [reflexivity|]. split; [reflexivity|].
  destruct (write_adds_fresh_sheet members memberStat blankX
              (Write members blankX).1 (Write members blankX).2
              eq_refl eq_refl (surjective_pairing _))
    as ((sh & extra & Hs & Hr & _) & _).
  exists sh, extra. split; [exact Hs|exact Hr].
Defined.


(** X2, on a value that is not a struct. *)
Lemma Write_rejects_other_kinds_witness :
  beanStruct OtherValue = None /\ Write OtherValue blankX = (Panic, blankX).
Proof.
  split; [reflexivity|]. exact (Write_rejects_other_kinds OtherValue blankX eq_refl).
Defined.

(** X3, on a slice that holds one pointer to a member. *)
Lemma Write_slice_of_pointers_panics_witness :
  exportableFrom memberStat 0 <> []
  /\ (Write (SliceValue (Ptr (Struct memberStat))
               [PtrValue (Struct memberStat) (Some (member 100 50))]) blankX).1 = Panic.
Proof.
  assert (Hf : exportableFrom memberStat 0 <> []) by (vm_compute; discriminate).
  split; [exact Hf|].
  exact (Write_slice_of_pointers_panics memberStat (Struct memberStat)
           (Some (member 100 50)) [] blankX Hf).
Defined.

(** X4, on a blank workbook: the title row and two records. *)
Lemma Write_appends_records_witness :
  hasTemplate blankX = false /\ beanStruct members = Some memberStat
  /\ exists x',
       Write members blankX = (Done tt, x')
       /\ map (rowAt (workbook x')) (Sheet_Rows (workbook x') 0%nat)
          = [ appendedRow 1 [StringValue "Total"; StringValue "New"];
              appendedRow 2 [NumberValue (float64_of_int 100); NumberValue (float64_of_int 50)];
              appendedRow 3 [NumberValue (float64_of_int 200); NumberValue (float64_of_int 60)] ].
Proof.
  split; [reflexivity|]. split; [reflexivity|].
  destruct (Write_appends_records members memberStat blankX eq_refl eq_refl)
    as (x' & Hrun & _ & Hrows).
  { intros v Hv. unfold beanRecords in Hv. simpl in Hv. elems; eexists; split; reflexivity. }
  { vm_compute. reflexivity. }
  exists x'. split; [exact Hrun|]. exact Hrows.
Defined.




(** X9, on the template: its sheet takes the name of the tag, and the
    next call finds it under that name. *)
Lemma createSheet_template_reuses_sheet_witness :
  hasTemplate templateX = true
  /\ exists x',
       createSheet membersTag templateX = (Done 0%nat, x')
       /\ createSheet membersTag x' = (Done 0%nat, x')
       /\ Sheet_Name (workbook x') 0%nat = "Members".
Proof.
  split; [reflexivity|].
  destruct (createSheet_template_reuses_sheet membersTag templateX eq_refl)
    as (s & x' & Hrun & Hagain & _).
  assert (Hs : s = 0%nat /\ Sheet_Name (workbook x') 0%nat = "Members").
  { pose proof Hrun as Hrun'. vm_compute in Hrun'. injection Hrun' as <- <-.
    split; reflexivity. }
  destruct Hs as [-> Hname].
  exists x'. split; [exact Hrun|]. split; [exact Hagain|exact Hname].
Defined.

(** X10, with a template file that is not there. *)
Lemma New_template_not_opened_witness :
  workbook (New (fun _ => None) [WithTemplate "missing.xlsx"]) = spreadsheet.New
  /\ (Write members (New (fun _ => None) [WithTemplate "missing.xlsx"])).1
     = (Write members blankX).1
  /\ workbook (Write members (New (fun _ => None) [WithTemplate "missing.xlsx"])).2
     = workbook (Write members blankX).2.
Proof.
  destruct (New_template_not_opened (fun _ => None) [WithTemplate "missing.xlsx"] members
              eq_refl) as [Hwb Hrun].
  split; [exact Hwb|]. unfold blankX. rewrite Hrun. split; reflexivity.
Defined.

(** X14, on cell A3 of the template: the value changes, the style stays. *)
Lemma setCellValue_changes_one_value_witness :
  let x' := (setCellValue (2%nat, 0%nat) dayField (StructValue [] [ITime referenceTime])
               templateX).2 in
  V (cellAt (workbook x') (2%nat, 0%nat)) = StringValue "2006-01-02"
  /\ SAttr (cellAt (workbook x') (2%nat, 0%nat)) = Some 2
  /\ cellAt (workbook x') (2%nat, 1%nat) = cellAt (workbook templateX) (2%nat, 1%nat).
Proof.
  destruct (setCellValue_changes_one_value (2%nat, 0%nat) dayField
              (StructValue [] [ITime referenceTime]) templateX _ _ (surjective_pairing _))
    as (_ & _ & _ & _ & Hcells & _).
  split; [reflexivity|].
  destruct (Hcells (2%nat, 0%nat)) as (_ & Hstyle & _).
  destruct (Hcells (2%nat, 1%nat)) as (_ & _ & Hother).
  split; [rewrite Hstyle; reflexivity|]. apply Hother. discriminate.
Defined.

(** X15, on a date layout. *)
Lemma ConvertLayout_separator_witness :
  tokenLetter "-" = false
  /\ ConvertLayout "yyyy-MM" = ConvertLayout "yyyy" +:+ String "-" (ConvertLayout "MM").
Proof.
  split; [reflexivity|]. exact (ConvertLayout_separator "-" "yyyy" "MM" eq_refl).
Defined.

(** X17, on a layout of literal text. *)
Lemma ConvertLayout_literal_witness :
  literal "at 12:30" = true /\ ConvertLayout "at 12:30" = "at 12:30".
Proof.
  split; [reflexivity|]. exact (ConvertLayout_literal "at 12:30" eq_refl).
Defined.

